(** * terraform-provider-maas: the network interface link resource

    A shallow embedding of [maas/resource_maas_network_interface_link.go]
    and the properties of its link teardown ([unlinkSubnet]) and of the
    create / read / update operations built on it.

    The Go code talks to MAAS through [gomaasclient].  The client is a
    library outside the provider, so it is a parameter here: a record of
    functions acting on an abstract [World] (the remote MAAS server).  Every
    client call the provider issues is recorded, in order, in a list of
    [Call]s, which is what the properties about "which gateway calls are
    issued, and in which order" talk about. *)

From Stdlib Require Import ZArith List String Ascii Bool Lia DecimalString.
From Stdlib Require DecimalPos.
Import ListNotations.

Local Open Scope string_scope.
Local Open Scope list_scope.
Local Open Scope Z_scope.

(* ===================================================================== *)
(** ** Go values *)
(* ===================================================================== *)

(** A Go [error] value.  Errors coming back from the client are opaque to
    the provider; the model keeps their detail and whether the server
    answered "not found", which is the one distinction the specification
    draws.  [Errorf] is an error built by [fmt.Errorf], [NumError] the one
    [strconv.Atoi] returns. *)
Inductive error : Type :=
| ClientError (notFound : bool) (detail : string)
| NumError (func num reason : string)
| Errorf (msg : string).

Definition isNotFound (e : error) : bool :=
  match e with
  | ClientError nf _ => nf
  | _ => false
  end.

(** The pair [(value, err)] a Go function returns, with [err == nil] as
    [Ok] and [err != nil] as [Err]. *)
Inductive result (A : Type) : Type :=
| Ok (a : A)
| Err (e : error).
Arguments Ok {A} a.
Arguments Err {A} e.

(** What is left of a [result] once the value is dropped ([_, err = ...]):
    [None] is Go's [nil] error. *)
Definition errOf {A} (r : result A) : option error :=
  match r with
  | Ok _ => None
  | Err e => Some e
  end.

(** A function either returns or panics (run-time error). *)
Inductive exec (A : Type) : Type :=
| Done (a : A)
| Panic (msg : string).
Arguments Done {A} a.
Arguments Panic {A} msg.

(** [%v] of an [int]. *)
Definition fmt_int (z : Z) : string := NilZero.string_of_int (Z.to_int z).

(* ===================================================================== *)
(** ** Entities of the client library (the fields the provider reads) *)
(* ===================================================================== *)

Module Machine.
Record t : Type := mk { SystemID : string; Status : Z }.
End Machine.

Module NetworkInterfaceLink.
Record t : Type := mk { ID : Z; IPAddress : string }.
End NetworkInterfaceLink.

Module NetworkInterface.
Record t : Type := mk { ID : Z; Links : list NetworkInterfaceLink.t }.
End NetworkInterface.

Module Subnet.
Record t : Type := mk { ID : Z }.
End Subnet.

Module NetworkInterfaceLinkParams.
Record t : Type := mk {
  Subnet : Z;
  Mode : string;
  DefaultGateway : bool;
  IPAddress : string
}.
End NetworkInterfaceLinkParams.

Module MachineReleaseParams.
(** The provider only ever passes the zero value [&MachineReleaseParams{}]. *)
Inductive t : Type := zero.
End MachineReleaseParams.

(* ===================================================================== *)
(** ** Node statuses *)
(* ===================================================================== *)

Module node.

(** [node.Status] is an integer type of the client library; its named
    constants are declared there, not in the provider, so they are
    parameters.  The only fact used about them is that the twenty-three
    constants named in the [switch] of [unlinkSubnet] are pairwise
    different, which the Go compiler demands of the cases of one switch.
    [Status_v] is how [%v] prints a status. *)
Class Constants : Type := {
  StatusNew : Z;
  StatusReady : Z;
  StatusAllocated : Z;
  StatusBroken : Z;
  StatusCommissioning : Z;
  StatusDeploying : Z;
  StatusReleasing : Z;
  StatusDiskErasing : Z;
  StatusEnteringRescureMode : Z;
  StatusExitingRescueMode : Z;
  StatusTesting : Z;
  StatusFailedCommissioning : Z;
  StatusMissing : Z;
  StatusReserved : Z;
  StatusDeployed : Z;
  StatusRetired : Z;
  StatusFailedDeployment : Z;
  StatusFailedReleasing : Z;
  StatusFailedDiskErasing : Z;
  StatusRescueMode : Z;
  StatusFailedEnteringRescueMode : Z;
  StatusFailedExitingRescueMode : Z;
  StatusFailedTesting : Z;
  Status_v : Z -> string;
  cases_distinct :
    NoDup
      ([StatusNew; StatusReady; StatusAllocated; StatusBroken]
       ++ [StatusCommissioning; StatusDeploying; StatusReleasing;
           StatusDiskErasing; StatusEnteringRescureMode;
           StatusExitingRescueMode; StatusTesting]
       ++ [StatusFailedCommissioning; StatusMissing; StatusReserved;
           StatusDeployed; StatusRetired; StatusFailedDeployment;
           StatusFailedReleasing; StatusFailedDiskErasing;
           StatusRescueMode; StatusFailedEnteringRescueMode;
           StatusFailedExitingRescueMode; StatusFailedTesting])
}.

End node.

(** The four arms of the [switch machine.Status] in [unlinkSubnet]. *)
Inductive Category : Type :=
| Valid
| Transitional
| NonTransitional
| Unknown.

Section Classification.
Context {NC : node.Constants}.
Import node.

(** [case node.StatusNew, node.StatusReady, node.StatusAllocated,
    node.StatusBroken:] *)
Definition ValidStates : list Z :=
  [StatusNew; StatusReady; StatusAllocated; StatusBroken].

(** The second [case] list. *)
Definition TransitionalStates : list Z :=
  [StatusCommissioning; StatusDeploying; StatusReleasing;
   StatusDiskErasing; StatusEnteringRescureMode;
   StatusExitingRescueMode; StatusTesting].

(** The third [case] list. *)
Definition NonTransitionalStates : list Z :=
  [StatusFailedCommissioning; StatusMissing; StatusReserved;
   StatusDeployed; StatusRetired; StatusFailedDeployment;
   StatusFailedReleasing; StatusFailedDiskErasing;
   StatusRescueMode; StatusFailedEnteringRescueMode;
   StatusFailedExitingRescueMode; StatusFailedTesting].

(** A [case] list matches when the tag equals one of its expressions,
    tried left to right. *)
Definition caseMatches (s : Z) (cases : list Z) : bool :=
  existsb (Z.eqb s) cases.

(** The arm the switch selects: the clauses are tried top to bottom and
    [default] is taken when none matches. *)
Definition classify (s : Z) : Category :=
  if caseMatches s ValidStates then Valid
  else if caseMatches s TransitionalStates then Transitional
  else if caseMatches s NonTransitionalStates then NonTransitional
  else Unknown.

End Classification.

(* ===================================================================== *)
(** ** The client and the calls issued through it *)
(* ===================================================================== *)

(** One entry per client call the provider makes, with its arguments. *)
Inductive Call : Type :=
| MachineGet (systemID : string)
| MachineAbort (systemID comment : string)
| MachineRelease (systemID : string) (params : MachineReleaseParams.t)
| MachineClearDefaultGateways (systemID : string)
| NetworkInterfaceGet (systemID : string) (id : Z)
| NetworkInterfaceLinkSubnet
    (systemID : string) (id : Z) (params : NetworkInterfaceLinkParams.t)
| NetworkInterfaceUnlinkSubnet (systemID : string) (id linkID : Z)
| NetworkInterfaceSetDefaultGateway (systemID : string) (id linkID : Z).

(** Calls that change something on the server, as opposed to fetches. *)
Definition isMutating (c : Call) : bool :=
  match c with
  | MachineGet _ | NetworkInterfaceGet _ _ => false
  | _ => true
  end.

Definition isLifecycle (c : Call) : bool :=
  match c with
  | MachineAbort _ _ | MachineRelease _ _ => true
  | _ => false
  end.

Definition isMachineGet (c : Call) : bool :=
  match c with MachineGet _ => true | _ => false end.

Definition isLinkSubnet (c : Call) : bool :=
  match c with NetworkInterfaceLinkSubnet _ _ _ => true | _ => false end.

Definition isSetDefaultGateway (c : Call) : bool :=
  match c with NetworkInterfaceSetDefaultGateway _ _ _ => true | _ => false end.

Definition isClearDefaultGateways (c : Call) : bool :=
  match c with MachineClearDefaultGateways _ => true | _ => false end.

(** [client.Machine] and [client.NetworkInterface], restricted to the
    methods this file calls.  A method answers from the current state of
    the server and may change it. *)
Record Client (World : Type) : Type := {
  Machine_Get : string -> World -> result Machine.t * World;
  Machine_Abort : string -> string -> World -> result Machine.t * World;
  Machine_Release :
    string -> MachineReleaseParams.t -> World -> result Machine.t * World;
  Machine_ClearDefaultGateways :
    string -> World -> result Machine.t * World;
  NetworkInterface_Get :
    string -> Z -> World -> result NetworkInterface.t * World;
  NetworkInterface_LinkSubnet :
    string -> Z -> NetworkInterfaceLinkParams.t -> World ->
    result NetworkInterface.t * World;
  NetworkInterface_UnlinkSubnet :
    string -> Z -> Z -> World -> result NetworkInterface.t * World;
  NetworkInterface_SetDefaultGateway :
    string -> Z -> Z -> World -> result NetworkInterface.t * World
}.
Arguments Machine_Get {World} _.
Arguments Machine_Abort {World} _.
Arguments Machine_Release {World} _.
Arguments Machine_ClearDefaultGateways {World} _.
Arguments NetworkInterface_Get {World} _.
Arguments NetworkInterface_LinkSubnet {World} _.
Arguments NetworkInterface_UnlinkSubnet {World} _.
Arguments NetworkInterface_SetDefaultGateway {World} _.

(* ===================================================================== *)
(** ** Computations: server state, call log, panics *)
(* ===================================================================== *)

Module M.
Section Monad.
Variable World : Type.

(** A computation runs from a state of the server and gives a value or a
    panic, the server's new state, and the calls it issued, oldest
    first. *)
Definition t (A : Type) : Type := World -> exec A * World * list Call.

Definition ret {A} (a : A) : t A := fun w => (Done a, w, []).

Definition bind {A B} (m : t A) (k : A -> t B) : t B :=
  fun w =>
    match m w with
    | (Done a, w1, t1) =>
        match k a w1 with
        | (r, w2, t2) => (r, w2, t1 ++ t2)
        end
    | (Panic msg, w1, t1) => (Panic msg, w1, t1)
    end.

Definition panic {A} (msg : string) : t A := fun w => (Panic msg, w, []).

(** A client call: logged, then answered by the client. *)
Definition invoke {A} (c : Call) (f : World -> result A * World)
  : t (result A) :=
  fun w => match f w with (r, w1) => (Done r, w1, [c]) end.

(** A helper of the provider defined in another file: it acts on the
    server, and its own calls are not part of this file's log. *)
Definition helper {A} (f : World -> result A * World) : t (result A) :=
  fun w => match f w with (r, w1) => (Done r, w1, []) end.

End Monad.
End M.
Arguments M.ret {World A} a.
Arguments M.bind {World A B} m k.
Arguments M.panic {World A} msg.
Arguments M.invoke {World A} c f.
Arguments M.helper {World A} f.

Declare Scope go_scope.
Delimit Scope go_scope with go.
Notation "x <- m ;; k" := (M.bind m (fun x => k))
  (at level 61, m at next level, right associativity) : go_scope.
Local Open Scope go_scope.

(* ===================================================================== *)
(** ** The teardown: [unlinkSubnet] *)
(* ===================================================================== *)

Section Teardown.
Context {NC : node.Constants}.
Variable World : Type.
Variable client : Client World.

Definition eventLogMsg (systemID : string) : string :=
  ("Terraform requested machine " ++ systemID
     ++ " be destroyed. Aborting current operation...")%string.

Definition unlinkSubnet
    (machineSystemID : string) (networkInterfaceID linkID : Z)
  : M.t World (option error) :=
  r <- M.invoke (MachineGet machineSystemID)
         (Machine_Get client machineSystemID) ;;
  match r with
  | Err _ => M.ret None
  | Ok machine =>
      match classify (Machine.Status machine) with
      | Valid =>
          r <- M.invoke
                 (NetworkInterfaceUnlinkSubnet
                    machineSystemID networkInterfaceID linkID)
                 (NetworkInterface_UnlinkSubnet client
                    machineSystemID networkInterfaceID linkID) ;;
          match r with
          | Err err => M.ret (Some err)
          | Ok _ => M.ret None
          end
      | Transitional =>
          let msg := eventLogMsg (Machine.SystemID machine) in
          r <- M.invoke (MachineAbort (Machine.SystemID machine) msg)
                 (Machine_Abort client (Machine.SystemID machine) msg) ;;
          match r with
          | Err err => M.ret (Some err)
          | Ok machine =>
              let releaseParams := MachineReleaseParams.zero in
              r <- M.invoke
                     (MachineRelease (Machine.SystemID machine) releaseParams)
                     (Machine_Release client
                        (Machine.SystemID machine) releaseParams) ;;
              match r with
              | Err err => M.ret (Some err)
              | Ok _ =>
                  r <- M.invoke
                         (NetworkInterfaceUnlinkSubnet
                            machineSystemID networkInterfaceID linkID)
                         (NetworkInterface_UnlinkSubnet client
                            machineSystemID networkInterfaceID linkID) ;;
                  match r with
                  | Err err => M.ret (Some err)
                  | Ok _ => M.ret None
                  end
              end
          end
      | NonTransitional =>
          let releaseParams := MachineReleaseParams.zero in
          r <- M.invoke
                 (MachineRelease (Machine.SystemID machine) releaseParams)
                 (Machine_Release client
                    (Machine.SystemID machine) releaseParams) ;;
          match r with
          | Err err => M.ret (Some err)
          | Ok _ =>
              r <- M.invoke
                     (NetworkInterfaceUnlinkSubnet
                        machineSystemID networkInterfaceID linkID)
                     (NetworkInterface_UnlinkSubnet client
                        machineSystemID networkInterfaceID linkID) ;;
              match r with
              | Err err => M.ret (Some err)
              | Ok _ => M.ret None
              end
          end
      | Unknown =>
          M.ret
            (Some
               (Errorf
                  ("cannot unlink subnet from machine in status "
                     ++ node.Status_v (Machine.Status machine))%string))
      end
  end.

Definition deleteNetworkInterfaceLink
    (machineSystemID : string) (networkInterfaceID linkID : Z)
  : M.t World (option error) :=
  unlinkSubnet machineSystemID networkInterfaceID linkID.

End Teardown.

(* ===================================================================== *)
(** ** Creating and reading a link *)
(* ===================================================================== *)

Section Binding.
Context {NC : node.Constants}.
Variable World : Type.
Variable client : Client World.

(** The loop [for _, link := range networkInterface.Links] of
    [createNetworkInterfaceLink]: one teardown per link, in order,
    leaving at the first error. *)
Fixpoint clearExistingLinks
    (machineSystemID : string) (networkInterfaceID : Z)
    (links : list NetworkInterfaceLink.t)
  : M.t World (option error) :=
  match links with
  | [] => M.ret None
  | link :: rest =>
      err <- unlinkSubnet World client machineSystemID networkInterfaceID
               (NetworkInterfaceLink.ID link) ;;
      match err with
      | Some e => M.ret (Some e)
      | None => clearExistingLinks machineSystemID networkInterfaceID rest
      end
  end.

Definition indexOutOfRange0 : string :=
  "runtime error: index out of range [0] with length 0".

Definition createNetworkInterfaceLink
    (machineSystemID : string) (networkInterface : NetworkInterface.t)
    (params : NetworkInterfaceLinkParams.t)
  : M.t World (result NetworkInterfaceLink.t) :=
  err <- clearExistingLinks machineSystemID
           (NetworkInterface.ID networkInterface)
           (NetworkInterface.Links networkInterface) ;;
  match err with
  | Some e => M.ret (Err e)
  | None =>
      r <- M.invoke
             (NetworkInterfaceLinkSubnet machineSystemID
                (NetworkInterface.ID networkInterface) params)
             (NetworkInterface_LinkSubnet client machineSystemID
                (NetworkInterface.ID networkInterface) params) ;;
      match r with
      | Err e => M.ret (Err e)
      | Ok networkInterface =>
          (* &networkInterface.Links[0] *)
          match NetworkInterface.Links networkInterface with
          | [] => M.panic indexOutOfRange0
          | link :: _ => M.ret (Ok link)
          end
      end
  end.

Definition linkNotFoundMsg
    (linkID networkInterfaceID : Z) (machineSystemID : string) : string :=
  ("cannot find link (" ++ fmt_int linkID
     ++ ") on the network interface (" ++ fmt_int networkInterfaceID
     ++ ") from machine (" ++ machineSystemID ++ ")")%string.

Definition getNetworkInterfaceLink
    (machineSystemID : string) (networkInterfaceID linkID : Z)
  : M.t World (result NetworkInterfaceLink.t) :=
  r <- M.invoke (NetworkInterfaceGet machineSystemID networkInterfaceID)
         (NetworkInterface_Get client machineSystemID networkInterfaceID) ;;
  match r with
  | Err e => M.ret (Err e)
  | Ok networkInterface =>
      match
        find (fun link => NetworkInterfaceLink.ID link =? linkID)
             (NetworkInterface.Links networkInterface)
      with
      | Some link => M.ret (Ok link)
      | None =>
          M.ret
            (Err (Errorf
                    (linkNotFoundMsg
                       linkID networkInterfaceID machineSystemID)))
      end
  end.

End Binding.

(* ===================================================================== *)
(** ** The resource handlers *)
(* ===================================================================== *)

(** [strconv.Atoi] of Go's library, for a 64-bit [int]: an optional sign
    and at least one decimal digit, read by [ParseInt] and [ParseUint]. *)
Module strconv.

(** What the digit loop of [ParseUint] comes to: the value read, or one of
    its two errors. *)
Inductive scan : Type :=
| Value (n : Z)
| ErrSyntax
| ErrRange.

Definition maxUint64 : Z := 2 ^ 64 - 1.

(** The smallest number such that [cutoff * 10 > maxUint64]. *)
Definition cutoff : Z := maxUint64 / 10 + 1.

Definition digit (c : ascii) : option Z :=
  let n := Z.of_nat (nat_of_ascii c) in
  if (48 <=? n) && (n <=? 57) then Some (n - 48) else None.

(** The loop of [ParseUint] in base 10 with [n] read so far: a character
    that is no digit is a syntax error; an overflow of 64 bits is a range
    error, reported where it happens, before the characters after it are
    looked at. *)
Fixpoint digits (s : string) (n : Z) : scan :=
  match s with
  | EmptyString => Value n
  | String c rest =>
      match digit c with
      | None => ErrSyntax
      | Some d =>
          if cutoff <=? n then ErrRange
          else if maxUint64 <? 10 * n + d then ErrRange
          else digits rest (10 * n + d)
      end
  end.

Definition ParseUint (s : string) : scan :=
  match s with
  | EmptyString => ErrSyntax
  | _ => digits s 0
  end.

(** [ParseInt(s, 10, 0)] where [int] has 64 bits, with the name of the
    function the error is to carry. *)
Definition ParseInt (fn s : string) : result Z :=
  match s with
  | EmptyString => Err (NumError fn s "invalid syntax")
  | String c rest =>
      let neg := Ascii.eqb c "-" in
      let body := if Ascii.eqb c "+" || Ascii.eqb c "-" then rest else s in
      match ParseUint body with
      | ErrSyntax => Err (NumError fn s "invalid syntax")
      | ErrRange => Err (NumError fn s "value out of range")
      | Value un =>
          if negb neg && (2 ^ 63 <=? un) then
            Err (NumError fn s "value out of range")
          else if neg && (2 ^ 63 <? un) then
            Err (NumError fn s "value out of range")
          else Ok (if neg then - un else un)
      end
  end.

(** [strconv.Atoi]; its fast path for short strings gives what [ParseInt]
    gives. *)
Definition Atoi (s : string) : result Z := ParseInt "Atoi" s.

End strconv.

(** [*schema.ResourceData] of this resource: its id and one field per
    attribute of the schema, with the attribute's type. *)
Module ResourceData.
Record t : Type := mk {
  Id : string;
  default_gateway : bool;
  device : string;
  ip_address : string;
  machine : string;
  mode : string;
  network_interface : string;
  subnet : string
}.

Definition SetId (d : t) (id : string) : t :=
  mk id (default_gateway d) (device d) (ip_address d) (machine d)
     (mode d) (network_interface d) (subnet d).

(** [d.Set("ip_address", v)]; the attribute is in the schema and [v] is a
    string, so no error comes back. *)
Definition Set_ip_address (d : t) (v : string) : t :=
  mk (Id d) (default_gateway d) (device d) v (machine d)
     (mode d) (network_interface d) (subnet d).
End ResourceData.

(** [diag.Diagnostics]: [nil] is the empty list. *)
Definition Diagnostics : Type := list error.
Definition FromErr (err : error) : Diagnostics := [err].

(** The identifier lookups the handlers call.  They are defined in other
    files of the provider and are parameters here. *)
Record Lookups (World : Type) : Type := {
  getMachineOrDeviceSystemID :
    ResourceData.t -> World -> result string * World;
  getNetworkInterface :
    string -> string -> World -> result NetworkInterface.t * World;
  getSubnet : string -> World -> result Subnet.t * World
}.
Arguments getMachineOrDeviceSystemID {World} _.
Arguments getNetworkInterface {World} _.
Arguments getSubnet {World} _.

Section Handlers.
Context {NC : node.Constants}.
Variable World : Type.
Variable client : Client World.
Variable lookups : Lookups World.

Definition getNetworkInterfaceLinkParams
    (d : ResourceData.t) (subnetID : Z) : NetworkInterfaceLinkParams.t :=
  NetworkInterfaceLinkParams.mk
    subnetID
    (ResourceData.mode d)
    (ResourceData.default_gateway d)
    (ResourceData.ip_address d).

Definition resourceNetworkInterfaceLinkRead (d : ResourceData.t)
  : M.t World (Diagnostics * ResourceData.t) :=
  match strconv.Atoi (ResourceData.Id d) with
  | Err err => M.ret (FromErr err, d)
  | Ok linkID =>
  r <- M.helper (getMachineOrDeviceSystemID lookups d) ;;
  match r with
  | Err err => M.ret (FromErr err, d)
  | Ok systemID =>
  r <- M.helper
         (getNetworkInterface lookups systemID
            (ResourceData.network_interface d)) ;;
  match r with
  | Err err => M.ret (FromErr err, d)
  | Ok networkInterface =>
  r <- getNetworkInterfaceLink World client systemID
         (NetworkInterface.ID networkInterface) linkID ;;
  match r with
  | Err err => M.ret (FromErr err, d)
  | Ok link =>
      M.ret ([], ResourceData.Set_ip_address d
                   (NetworkInterfaceLink.IPAddress link))
  end end end end.

Definition resourceNetworkInterfaceLinkCreate (d : ResourceData.t)
  : M.t World (Diagnostics * ResourceData.t) :=
  r <- M.helper (getMachineOrDeviceSystemID lookups d) ;;
  match r with
  | Err err => M.ret (FromErr err, d)
  | Ok systemID =>
  r <- M.helper
         (getNetworkInterface lookups systemID
            (ResourceData.network_interface d)) ;;
  match r with
  | Err err => M.ret (FromErr err, d)
  | Ok networkInterface =>
  r <- M.helper (getSubnet lookups (ResourceData.subnet d)) ;;
  match r with
  | Err err => M.ret (FromErr err, d)
  | Ok subnet =>
  r <- createNetworkInterfaceLink World client systemID networkInterface
         (getNetworkInterfaceLinkParams d (Subnet.ID subnet)) ;;
  match r with
  | Err err => M.ret (FromErr err, d)
  | Ok link =>
      resourceNetworkInterfaceLinkRead
        (ResourceData.SetId d (fmt_int (NetworkInterfaceLink.ID link)))
  end end end end.

Definition resourceNetworkInterfaceLinkUpdate (d : ResourceData.t)
  : M.t World (Diagnostics * ResourceData.t) :=
  match strconv.Atoi (ResourceData.Id d) with
  | Err err => M.ret (FromErr err, d)
  | Ok linkID =>
  r <- M.helper (getMachineOrDeviceSystemID lookups d) ;;
  match r with
  | Err err => M.ret (FromErr err, d)
  | Ok systemID =>
  r <- M.helper
         (getNetworkInterface lookups systemID
            (ResourceData.network_interface d)) ;;
  match r with
  | Err err => M.ret (FromErr err, d)
  | Ok networkInterface =>
  r <- M.invoke (MachineClearDefaultGateways systemID)
         (Machine_ClearDefaultGateways client systemID) ;;
  match r with
  | Err err => M.ret (FromErr err, d)
  | Ok _ =>
  e <- (if ResourceData.default_gateway d then
          r <- M.invoke
                 (NetworkInterfaceSetDefaultGateway systemID
                    (NetworkInterface.ID networkInterface) linkID)
                 (NetworkInterface_SetDefaultGateway client systemID
                    (NetworkInterface.ID networkInterface) linkID) ;;
          M.ret (errOf r)
        else M.ret None) ;;
  match e with
  | Some err => M.ret (FromErr err, d)
  | None => resourceNetworkInterfaceLinkRead d
  end end end end end.

Definition resourceNetworkInterfaceLinkDelete (d : ResourceData.t)
  : M.t World (Diagnostics * ResourceData.t) :=
  match strconv.Atoi (ResourceData.Id d) with
  | Err err => M.ret (FromErr err, d)
  | Ok linkID =>
  r <- M.helper (getMachineOrDeviceSystemID lookups d) ;;
  match r with
  | Err err => M.ret (FromErr err, d)
  | Ok systemID =>
  r <- M.helper
         (getNetworkInterface lookups systemID
            (ResourceData.network_interface d)) ;;
  match r with
  | Err err => M.ret (FromErr err, d)
  | Ok networkInterface =>
  e <- deleteNetworkInterfaceLink World client systemID
         (NetworkInterface.ID networkInterface) linkID ;;
  match e with
  | Some err => M.ret (FromErr err, d)
  | None => M.ret ([], d)
  end end end end.

End Handlers.

(* ===================================================================== *)
(** ** Succeeding teardowns in sequence *)
(* ===================================================================== *)

Section TeardownRuns.
Context {NC : node.Constants}.
Variable World : Type.
Variable client : Client World.
Variable machineSystemID : string.
Variable networkInterfaceID : Z.

(** [teardownsSucceed links w w' calls]: tearing down the links of
    [links] one after the other, each from the state the one before left,
    succeeds every time, ends in [w'] and issues [calls]. *)
Inductive teardownsSucceed
  : list NetworkInterfaceLink.t -> World -> World -> list Call -> Prop :=
| teardowns_nil w : teardownsSucceed [] w w []
| teardowns_cons link rest w w1 t1 w2 t2 :
    unlinkSubnet World client machineSystemID networkInterfaceID
      (NetworkInterfaceLink.ID link) w = (Done None, w1, t1) ->
    teardownsSucceed rest w1 w2 t2 ->
    teardownsSucceed (link :: rest) w w2 (t1 ++ t2).

End TeardownRuns.

(* ===================================================================== *)
(** ** Test doubles *)
(* ===================================================================== *)

Module Fixture.

(** The numbering of MAAS's [NODE_STATUS], as one assignment of the
    status constants. *)
#[refine] Instance maas : node.Constants := {|
  node.StatusNew := 0;
  node.StatusCommissioning := 1;
  node.StatusFailedCommissioning := 2;
  node.StatusMissing := 3;
  node.StatusReady := 4;
  node.StatusReserved := 5;
  node.StatusDeployed := 6;
  node.StatusRetired := 7;
  node.StatusBroken := 8;
  node.StatusDeploying := 9;
  node.StatusAllocated := 10;
  node.StatusFailedDeployment := 11;
  node.StatusReleasing := 12;
  node.StatusFailedReleasing := 13;
  node.StatusDiskErasing := 14;
  node.StatusFailedDiskErasing := 15;
  node.StatusRescueMode := 16;
  node.StatusEnteringRescureMode := 17;
  node.StatusFailedEnteringRescueMode := 18;
  node.StatusExitingRescueMode := 19;
  node.StatusFailedExitingRescueMode := 20;
  node.StatusTesting := 21;
  node.StatusFailedTesting := 22;
  node.Status_v := fmt_int
|}.
Proof.
  repeat (constructor; [cbn; intuition discriminate|]). constructor.
Defined.

(** A server that gives the same answer to every call of a method and
    counts the calls it has served. *)
Record Answers : Type := {
  onGet : result Machine.t;
  onAbort : result Machine.t;
  onRelease : result Machine.t;
  onClearDefaultGateways : result Machine.t;
  onInterfaceGet : result NetworkInterface.t;
  onLinkSubnet : result NetworkInterface.t;
  onUnlinkSubnet : result NetworkInterface.t;
  onSetDefaultGateway : result NetworkInterface.t
}.

Definition client (a : Answers) : Client nat := {|
  Machine_Get := fun _ n => (onGet a, S n);
  Machine_Abort := fun _ _ n => (onAbort a, S n);
  Machine_Release := fun _ _ n => (onRelease a, S n);
  Machine_ClearDefaultGateways := fun _ n => (onClearDefaultGateways a, S n);
  NetworkInterface_Get := fun _ _ n => (onInterfaceGet a, S n);
  NetworkInterface_LinkSubnet := fun _ _ _ n => (onLinkSubnet a, S n);
  NetworkInterface_UnlinkSubnet := fun _ _ _ n => (onUnlinkSubnet a, S n);
  NetworkInterface_SetDefaultGateway :=
    fun _ _ _ n => (onSetDefaultGateway a, S n)
|}.

Definition link42 : NetworkInterfaceLink.t :=
  NetworkInterfaceLink.mk 42 "10.0.0.5".
Definition link43 : NetworkInterfaceLink.t :=
  NetworkInterfaceLink.mk 43 "10.0.0.6".
Definition eth0 : NetworkInterface.t :=
  NetworkInterface.mk 7 [link42; link43].
Definition eth0_unlinked : NetworkInterface.t := NetworkInterface.mk 7 [].

(** A healthy server whose one machine has status [st]. *)
Definition healthy (st : Z) : Answers := {|
  onGet := Ok (Machine.mk "abc123" st);
  onAbort := Ok (Machine.mk "abc123" st);
  onRelease := Ok (Machine.mk "abc123" st);
  onClearDefaultGateways := Ok (Machine.mk "abc123" st);
  onInterfaceGet := Ok eth0;
  onLinkSubnet := Ok eth0;
  onUnlinkSubnet := Ok eth0_unlinked;
  onSetDefaultGateway := Ok eth0
|}.

Definition unreachable : error := ClientError false "connection refused".
Definition gone : error :=
  ClientError true "No Machine matches the given query.".

Definition withGet (a : Answers) (r : result Machine.t) : Answers := {|
  onGet := r;
  onAbort := onAbort a;
  onRelease := onRelease a;
  onClearDefaultGateways := onClearDefaultGateways a;
  onInterfaceGet := onInterfaceGet a;
  onLinkSubnet := onLinkSubnet a;
  onUnlinkSubnet := onUnlinkSubnet a;
  onSetDefaultGateway := onSetDefaultGateway a
|}.


Definition withLinkSubnet (a : Answers) (r : result NetworkInterface.t)
  : Answers := {|
  onGet := onGet a;
  onAbort := onAbort a;
  onRelease := onRelease a;
  onClearDefaultGateways := onClearDefaultGateways a;
  onInterfaceGet := onInterfaceGet a;
  onLinkSubnet := r;
  onUnlinkSubnet := onUnlinkSubnet a;
  onSetDefaultGateway := onSetDefaultGateway a
|}.

(** Lookups that resolve every identifier to the same machine, interface
    and subnet. *)
Definition lookups : Lookups nat := {|
  getMachineOrDeviceSystemID := fun _ n => (Ok "abc123", n);
  getNetworkInterface := fun _ _ n => (Ok eth0, n);
  getSubnet := fun _ n => (Ok (Subnet.mk 3), n)
|}.

Definition resource (id : string) (defaultGateway : bool)
  : ResourceData.t :=
  ResourceData.mk id defaultGateway "" "" "abc123" "AUTO" "eth0"
    "10.0.0.0/24".

Definition notResolved : error := Errorf "not found".

(** Lookups that do not find the machine, the interface, the subnet. *)
Definition noMachine : Lookups nat := {|
  getMachineOrDeviceSystemID := fun _ n => (Err notResolved, n);
  getNetworkInterface := fun _ _ n => (Ok eth0, n);
  getSubnet := fun _ n => (Ok (Subnet.mk 3), n)
|}.

Definition noInterface : Lookups nat := {|
  getMachineOrDeviceSystemID := fun _ n => (Ok "abc123", n);
  getNetworkInterface := fun _ _ n => (Err notResolved, n);
  getSubnet := fun _ n => (Ok (Subnet.mk 3), n)
|}.

Definition noSubnet : Lookups nat := {|
  getMachineOrDeviceSystemID := fun _ n => (Ok "abc123", n);
  getNetworkInterface := fun _ _ n => (Ok eth0, n);
  getSubnet := fun _ n => (Err notResolved, n)
|}.


Definition withInterfaceGet
    (a : Answers) (r : result NetworkInterface.t) : Answers := {|
  onGet := onGet a;
  onAbort := onAbort a;
  onRelease := onRelease a;
  onClearDefaultGateways := onClearDefaultGateways a;
  onInterfaceGet := r;
  onLinkSubnet := onLinkSubnet a;
  onUnlinkSubnet := onUnlinkSubnet a;
  onSetDefaultGateway := onSetDefaultGateway a
|}.

End Fixture.

(* ===================================================================== *)
(** ** Tactics *)
(* ===================================================================== *)

(** Unfold the plumbing of a computation. *)
Ltac run_go :=
  unfold M.bind, M.invoke, M.helper, M.ret, M.panic; cbn beta iota.

(** Case analysis on the answer of the next client call in the goal. *)
Ltac split_call :=
  match goal with
  | |- context [match ?f ?w with pair _ _ => _ end] =>
      let r := fresh "r" in
      let w' := fresh "w" in
      destruct (f w) as [r w'] eqn:?; destruct r; cbn
  end.

(** The value [strconv.digit] gives to the digit character in the goal. *)
Ltac digit_value :=
  match goal with
  | |- context [strconv.digit ?c] =>
      change (strconv.digit c) with (Some (Z.of_nat (nat_of_ascii c) - 48));
      let v := eval vm_compute in (Z.of_nat (nat_of_ascii c)) in
      change (Z.of_nat (nat_of_ascii c)) with v
  end; cbv beta iota.

(* ===================================================================== *)
(** ** Sanity checks of the model on concrete runs *)
(* ===================================================================== *)

Example atoi_42 : strconv.Atoi "42" = Ok 42.
Proof. reflexivity. Qed.

Example atoi_neg : strconv.Atoi "-7" = Ok (-7).
Proof. reflexivity. Qed.

Example atoi_bad :
  strconv.Atoi "4x" = Err (NumError "Atoi" "4x" "invalid syntax").
Proof. reflexivity. Qed.

Example atoi_sign_only :
  strconv.Atoi "-" = Err (NumError "Atoi" "-" "invalid syntax").
Proof. reflexivity. Qed.

Example atoi_plus : strconv.Atoi "+7" = Ok 7.
Proof. reflexivity. Qed.

Example atoi_empty :
  strconv.Atoi "" = Err (NumError "Atoi" "" "invalid syntax").
Proof. reflexivity. Qed.

Example atoi_min : strconv.Atoi "-9223372036854775808" = Ok (- 2 ^ 63).
Proof. reflexivity. Qed.

Example atoi_max_plus_one :
  strconv.Atoi "9223372036854775808"
  = Err (NumError "Atoi" "9223372036854775808" "value out of range").
Proof. reflexivity. Qed.

(** An overflow of 64 bits is reported before the character after it is
    looked at; without overflow the bad character is a syntax error. *)
Example atoi_overflow_then_letter :
  strconv.Atoi "99999999999999999999x"
  = Err (NumError "Atoi" "99999999999999999999x" "value out of range").
Proof. reflexivity. Qed.

Example atoi_letter_without_overflow :
  strconv.Atoi "9223372036854775808x"
  = Err (NumError "Atoi" "9223372036854775808x" "invalid syntax").
Proof. reflexivity. Qed.

Example atoi_underscore :
  strconv.Atoi "1_000" = Err (NumError "Atoi" "1_000" "invalid syntax").
Proof. reflexivity. Qed.

Example delete_deploying :
  deleteNetworkInterfaceLink (NC := Fixture.maas) nat
    (Fixture.client (Fixture.healthy 9)) "abc123" 7 42 0%nat
  = (Done None, 4%nat,
     [MachineGet "abc123";
      MachineAbort "abc123"
        "Terraform requested machine abc123 be destroyed. Aborting current operation...";
      MachineRelease "abc123" MachineReleaseParams.zero;
      NetworkInterfaceUnlinkSubnet "abc123" 7 42]).
Proof. reflexivity. Qed.

Example delete_deployed :
  deleteNetworkInterfaceLink (NC := Fixture.maas) nat
    (Fixture.client (Fixture.healthy 6)) "abc123" 7 42 0%nat
  = (Done None, 3%nat,
     [MachineGet "abc123";
      MachineRelease "abc123" MachineReleaseParams.zero;
      NetworkInterfaceUnlinkSubnet "abc123" 7 42]).
Proof. reflexivity. Qed.

Example create_on_ready :
  resourceNetworkInterfaceLinkCreate (NC := Fixture.maas) nat
    (Fixture.client (Fixture.healthy 4)) Fixture.lookups
    (Fixture.resource "" false) 0%nat
  = (Done ([], ResourceData.mk "42" false "" "10.0.0.5" "abc123" "AUTO"
                 "eth0" "10.0.0.0/24"),
     6%nat,
     [MachineGet "abc123"; NetworkInterfaceUnlinkSubnet "abc123" 7 42;
      MachineGet "abc123"; NetworkInterfaceUnlinkSubnet "abc123" 7 43;
      NetworkInterfaceLinkSubnet "abc123" 7
        (NetworkInterfaceLinkParams.mk 3 "AUTO" false "");
      NetworkInterfaceGet "abc123" 7]).
Proof. reflexivity. Qed.

(* ===================================================================== *)
(** ** The status classification *)
(* ===================================================================== *)

Lemma NoDup_app_disjoint {A} (l1 l2 : list A) (a : A) :
  NoDup (l1 ++ l2) -> In a l1 -> In a l2 -> False.
Proof.
  induction l1 as [|x l1 IH]; simpl; intros Hnd H1 H2.
  - exact H1.
  - inversion Hnd as [|? ? Hx Hrest]; subst.
    destruct H1 as [->|H1].
    + apply Hx. apply in_or_app. now right.
    + now apply IH.
Qed.

Section ClassificationFacts.
Context {NC : node.Constants}.

Lemma caseMatches_In (s : Z) (cases : list Z) :
  caseMatches s cases = true <-> In s cases.
Proof.
  unfold caseMatches. rewrite existsb_exists. split.
  - intros [x [Hin Heq]]. apply Z.eqb_eq in Heq. now subst.
  - intros Hin. exists s. split; [exact Hin | apply Z.eqb_refl].
Qed.

Lemma caseMatches_not_In (s : Z) (cases : list Z) :
  caseMatches s cases = false <-> ~ In s cases.
Proof.
  rewrite <- caseMatches_In. destruct (caseMatches s cases); split;
    congruence || (intros H; exfalso; now apply H) || reflexivity.
Qed.

Lemma Valid_Transitional_disjoint (s : Z) :
  In s ValidStates -> In s TransitionalStates -> False.
Proof.
  intros HV HT.
  apply (NoDup_app_disjoint _ _ s node.cases_distinct HV).
  apply in_or_app. now left.
Qed.

Lemma Valid_NonTransitional_disjoint (s : Z) :
  In s ValidStates -> In s NonTransitionalStates -> False.
Proof.
  intros HV HN.
  apply (NoDup_app_disjoint _ _ s node.cases_distinct HV).
  apply in_or_app. now right.
Qed.

Lemma Transitional_NonTransitional_disjoint (s : Z) :
  In s TransitionalStates -> In s NonTransitionalStates -> False.
Proof.
  intros HT HN.
  apply (NoDup_app_disjoint _ _ s
           (NoDup_app_remove_l _ _ node.cases_distinct) HT HN).
Qed.

Lemma classify_Valid (s : Z) : In s ValidStates -> classify s = Valid.
Proof.
  intros H. unfold classify. now rewrite (proj2 (caseMatches_In _ _) H).
Qed.

Lemma classify_Transitional (s : Z) :
  In s TransitionalStates -> classify s = Transitional.
Proof.
  intros H. unfold classify.
  rewrite (proj2 (caseMatches_not_In s ValidStates)).
  - now rewrite (proj2 (caseMatches_In _ _) H).
  - intros HV. exact (Valid_Transitional_disjoint s HV H).
Qed.

Lemma classify_NonTransitional (s : Z) :
  In s NonTransitionalStates -> classify s = NonTransitional.
Proof.
  intros H. unfold classify.
  rewrite (proj2 (caseMatches_not_In s ValidStates)).
  - rewrite (proj2 (caseMatches_not_In s TransitionalStates)).
    + now rewrite (proj2 (caseMatches_In _ _) H).
    + intros HT. exact (Transitional_NonTransitional_disjoint s HT H).
  - intros HV. exact (Valid_NonTransitional_disjoint s HV H).
Qed.

Lemma classify_Unknown (s : Z) :
  ~ In s (ValidStates ++ TransitionalStates ++ NonTransitionalStates) ->
  classify s = Unknown.
Proof.
  intros H. unfold classify.
  rewrite (proj2 (caseMatches_not_In s ValidStates)),
          (proj2 (caseMatches_not_In s TransitionalStates)),
          (proj2 (caseMatches_not_In s NonTransitionalStates));
    [reflexivity | | | ];
    intros Hin; apply H; rewrite !in_app_iff; tauto.
Qed.

(** The switch picks its arm by membership in the three case lists, and
    nothing else. *)
Lemma classify_cases (s : Z) :
  (In s ValidStates /\ classify s = Valid)
  \/ (In s TransitionalStates /\ classify s = Transitional)
  \/ (In s NonTransitionalStates /\ classify s = NonTransitional)
  \/ (~ In s (ValidStates ++ TransitionalStates ++ NonTransitionalStates)
      /\ classify s = Unknown).
Proof.
  destruct (caseMatches s ValidStates) eqn:HV.
  { left. apply caseMatches_In in HV. split; [exact HV|].
    now apply classify_Valid. }
  destruct (caseMatches s TransitionalStates) eqn:HT.
  { right; left. apply caseMatches_In in HT. split; [exact HT|].
    now apply classify_Transitional. }
  destruct (caseMatches s NonTransitionalStates) eqn:HN.
  { right; right; left. apply caseMatches_In in HN. split; [exact HN|].
    now apply classify_NonTransitional. }
  right; right; right.
  apply caseMatches_not_In in HV, HT, HN.
  assert (Hout : ~ In s (ValidStates ++ TransitionalStates
                           ++ NonTransitionalStates)).
  { rewrite !in_app_iff. tauto. }
  split; [exact Hout | now apply classify_Unknown].
Qed.

(** C9. The status classification is a total function of the status: a
    status is classified Valid, Transitional or NonTransitional exactly
    when it is in the corresponding case list, the three lists have no
    status in common, and a status is classified Unknown exactly when it is
    in none of them. *)
Theorem classify_partition (s : Z) :
  (classify s = Valid <-> In s ValidStates)
  /\ (classify s = Transitional <-> In s TransitionalStates)
  /\ (classify s = NonTransitional <-> In s NonTransitionalStates)
  /\ (classify s = Unknown <->
      ~ In s (ValidStates ++ TransitionalStates ++ NonTransitionalStates))
  /\ (forall x, In x ValidStates -> ~ In x TransitionalStates)
  /\ (forall x, In x ValidStates -> ~ In x NonTransitionalStates)
  /\ (forall x, In x TransitionalStates -> ~ In x NonTransitionalStates)
  /\ (exists c, classify s = c /\ forall c', classify s = c' -> c' = c).
Proof.
  repeat split;
    try (intros H; first
           [ now apply classify_Valid
           | now apply classify_Transitional
           | now apply classify_NonTransitional
           | now apply classify_Unknown ]).
  - intros H. destruct (classify_cases s) as [[? E]|[[? E]|[[? E]|[? E]]]];
      congruence.
  - intros H. destruct (classify_cases s) as [[? E]|[[? E]|[[? E]|[? E]]]];
      congruence.
  - intros H. destruct (classify_cases s) as [[? E]|[[? E]|[[? E]|[? E]]]];
      congruence.
  - intros H. destruct (classify_cases s) as [[? E]|[[? E]|[[? E]|[? E]]]];
      congruence.
  - intros x HV HT. exact (Valid_Transitional_disjoint x HV HT).
  - intros x HV HN. exact (Valid_NonTransitional_disjoint x HV HN).
  - intros x HT HN. exact (Transitional_NonTransitional_disjoint x HT HN).
  - exists (classify s). split; [reflexivity | congruence].
Qed.

End ClassificationFacts.

(* ===================================================================== *)
(** ** The teardown, arm by arm *)
(* ===================================================================== *)

Section TeardownFacts.
Context {NC : node.Constants}.
Variable World : Type.
Variable client : Client World.
Variable machineSystemID : string.
Variables networkInterfaceID linkID : Z.

(** The branch [if err != nil] after the fetch, as it is written: whatever
    the fetch error is, the teardown returns [nil] and issues no call
    after the fetch.  The comments of [unlinkSubnet] ask for this no-op
    when the machine does not or no longer exists; the branch does not
    look at the kind of the error. *)
Theorem unlinkSubnet_fetch_failure (w w1 : World) (e : error) :
  Machine_Get client machineSystemID w = (Err e, w1) ->
  unlinkSubnet World client machineSystemID networkInterfaceID linkID w
  = (Done None, w1, [MachineGet machineSystemID]).
Proof.
  intros Hget. unfold unlinkSubnet. run_go.
  rewrite Hget. reflexivity.
Qed.

(** C5. When the fetched status is one of New, Ready, Allocated, Broken,
    the teardown issues, after the fetch, the unlink call and nothing else
    (no abort, no release), and returns the unlink call's error, or [nil]
    when it succeeded. *)
Theorem unlinkSubnet_valid
    (w w1 w2 : World) (machine : Machine.t)
    (r : result NetworkInterface.t) :
  Machine_Get client machineSystemID w = (Ok machine, w1) ->
  In (Machine.Status machine) ValidStates ->
  NetworkInterface_UnlinkSubnet client
    machineSystemID networkInterfaceID linkID w1 = (r, w2) ->
  unlinkSubnet World client machineSystemID networkInterfaceID linkID w
  = (Done (errOf r), w2,
     [MachineGet machineSystemID;
      NetworkInterfaceUnlinkSubnet
        machineSystemID networkInterfaceID linkID])
  /\ existsb isLifecycle
       (snd (unlinkSubnet World client
               machineSystemID networkInterfaceID linkID w))
     = false.
Proof.
  intros Hget Hst Hun.
  assert (E : unlinkSubnet World client
                machineSystemID networkInterfaceID linkID w
              = (Done (errOf r), w2,
                 [MachineGet machineSystemID;
                  NetworkInterfaceUnlinkSubnet
                    machineSystemID networkInterfaceID linkID])).
  { unfold unlinkSubnet. run_go.
    rewrite Hget, (classify_Valid _ Hst), Hun. now destruct r. }
  split; [exact E | now rewrite E].
Qed.

(** C2. When the fetched status is one of the seven transitional statuses,
    the teardown issues, after the fetch, abort, then release, then unlink.
    A failing abort is returned and neither release nor unlink is issued;
    a failing release is returned and unlink is not issued; otherwise the
    result is that of unlink. *)
Theorem unlinkSubnet_transitional (w w1 : World) (machine : Machine.t) :
  Machine_Get client machineSystemID w = (Ok machine, w1) ->
  In (Machine.Status machine) TransitionalStates ->
  let callAbort :=
    MachineAbort (Machine.SystemID machine)
      (eventLogMsg (Machine.SystemID machine)) in
  let abort :=
    Machine_Abort client (Machine.SystemID machine)
      (eventLogMsg (Machine.SystemID machine)) in
  (forall e w2,
      abort w1 = (Err e, w2) ->
      unlinkSubnet World client machineSystemID networkInterfaceID linkID w
      = (Done (Some e), w2, [MachineGet machineSystemID; callAbort]))
  /\ (forall aborted w2 e w3,
      abort w1 = (Ok aborted, w2) ->
      Machine_Release client (Machine.SystemID aborted)
        MachineReleaseParams.zero w2 = (Err e, w3) ->
      unlinkSubnet World client machineSystemID networkInterfaceID linkID w
      = (Done (Some e), w3,
         [MachineGet machineSystemID; callAbort;
          MachineRelease (Machine.SystemID aborted)
            MachineReleaseParams.zero]))
  /\ (forall aborted w2 released w3 r w4,
      abort w1 = (Ok aborted, w2) ->
      Machine_Release client (Machine.SystemID aborted)
        MachineReleaseParams.zero w2 = (Ok released, w3) ->
      NetworkInterface_UnlinkSubnet client
        machineSystemID networkInterfaceID linkID w3 = (r, w4) ->
      unlinkSubnet World client machineSystemID networkInterfaceID linkID w
      = (Done (errOf r), w4,
         [MachineGet machineSystemID; callAbort;
          MachineRelease (Machine.SystemID aborted)
            MachineReleaseParams.zero;
          NetworkInterfaceUnlinkSubnet
            machineSystemID networkInterfaceID linkID])).
Proof.
  intros Hget Hst callAbort abort. subst callAbort abort.
  repeat split.
  - intros e w2 Hab. unfold unlinkSubnet. run_go.
    rewrite Hget, (classify_Transitional _ Hst). cbn zeta.
    rewrite Hab. reflexivity.
  - intros aborted w2 e w3 Hab Hrel. unfold unlinkSubnet. run_go.
    rewrite Hget, (classify_Transitional _ Hst). cbn zeta.
    rewrite Hab, Hrel. reflexivity.
  - intros aborted w2 released w3 r w4 Hab Hrel Hun.
    unfold unlinkSubnet. run_go.
    rewrite Hget, (classify_Transitional _ Hst). cbn zeta.
    rewrite Hab, Hrel, Hun. now destruct r.
Qed.

(** C4. When the fetched status is one of the twelve non-transitional
    statuses, the teardown issues, after the fetch, release and then
    unlink, and never abort.  A failing release is returned and unlink is
    not issued; otherwise the result is that of unlink. *)
Theorem unlinkSubnet_nontransitional
    (w w1 : World) (machine : Machine.t) :
  Machine_Get client machineSystemID w = (Ok machine, w1) ->
  In (Machine.Status machine) NonTransitionalStates ->
  let callRelease :=
    MachineRelease (Machine.SystemID machine) MachineReleaseParams.zero in
  let release :=
    Machine_Release client (Machine.SystemID machine)
      MachineReleaseParams.zero in
  (forall e w2,
      release w1 = (Err e, w2) ->
      unlinkSubnet World client machineSystemID networkInterfaceID linkID w
      = (Done (Some e), w2, [MachineGet machineSystemID; callRelease]))
  /\ (forall released w2 r w3,
      release w1 = (Ok released, w2) ->
      NetworkInterface_UnlinkSubnet client
        machineSystemID networkInterfaceID linkID w2 = (r, w3) ->
      unlinkSubnet World client machineSystemID networkInterfaceID linkID w
      = (Done (errOf r), w3,
         [MachineGet machineSystemID; callRelease;
          NetworkInterfaceUnlinkSubnet
            machineSystemID networkInterfaceID linkID]))
  /\ (forall systemID comment,
      ~ In (MachineAbort systemID comment)
           (snd (unlinkSubnet World client
                   machineSystemID networkInterfaceID linkID w))).
Proof.
  intros Hget Hst callRelease release. subst callRelease release.
  assert (Hfail : forall e w2,
             Machine_Release client (Machine.SystemID machine)
               MachineReleaseParams.zero w1 = (Err e, w2) ->
             unlinkSubnet World client
               machineSystemID networkInterfaceID linkID w
             = (Done (Some e), w2,
                [MachineGet machineSystemID;
                 MachineRelease (Machine.SystemID machine)
                   MachineReleaseParams.zero])).
  { intros e w2 Hrel. unfold unlinkSubnet. run_go.
    rewrite Hget, (classify_NonTransitional _ Hst). cbn zeta.
    rewrite Hrel. reflexivity. }
  assert (Hok : forall released w2 r w3,
             Machine_Release client (Machine.SystemID machine)
               MachineReleaseParams.zero w1 = (Ok released, w2) ->
             NetworkInterface_UnlinkSubnet client
               machineSystemID networkInterfaceID linkID w2 = (r, w3) ->
             unlinkSubnet World client
               machineSystemID networkInterfaceID linkID w
             = (Done (errOf r), w3,
                [MachineGet machineSystemID;
                 MachineRelease (Machine.SystemID machine)
                   MachineReleaseParams.zero;
                 NetworkInterfaceUnlinkSubnet
                   machineSystemID networkInterfaceID linkID])).
  { intros released w2 r w3 Hrel Hun. unfold unlinkSubnet. run_go.
    rewrite Hget, (classify_NonTransitional _ Hst). cbn zeta.
    rewrite Hrel, Hun. now destruct r. }
  split; [exact Hfail | split; [exact Hok |]].
  intros systemID comment.
  destruct (Machine_Release client (Machine.SystemID machine)
              MachineReleaseParams.zero w1) as [[released|e] w2] eqn:Hrel.
  - destruct (NetworkInterface_UnlinkSubnet client
                machineSystemID networkInterfaceID linkID w2)
      as [r w3] eqn:Hun.
    rewrite (Hok released w2 r w3 eq_refl Hun). cbn.
    intros [H|[H|[H|[]]]]; discriminate.
  - rewrite (Hfail e w2 eq_refl). cbn.
    intros [H|[H|[]]]; discriminate.
Qed.

(** C6. When the fetched status is in none of the three case lists, the
    teardown fails with an error that names the status, and the fetch is
    the only call it issues. *)
Theorem unlinkSubnet_unknown (w w1 : World) (machine : Machine.t) :
  Machine_Get client machineSystemID w = (Ok machine, w1) ->
  ~ In (Machine.Status machine)
       (ValidStates ++ TransitionalStates ++ NonTransitionalStates) ->
  unlinkSubnet World client machineSystemID networkInterfaceID linkID w
  = (Done
       (Some
          (Errorf
             ("cannot unlink subnet from machine in status "
                ++ node.Status_v (Machine.Status machine))%string)),
     w1, [MachineGet machineSystemID]).
Proof.
  intros Hget Hst. unfold unlinkSubnet. run_go.
  rewrite Hget, (classify_Unknown _ Hst). reflexivity.
Qed.

End TeardownFacts.

(* ===================================================================== *)
(** ** Shape of a teardown's call log *)
(* ===================================================================== *)

Section TeardownShape.
Context {NC : node.Constants}.
Variable World : Type.
Variable client : Client World.
Variable machineSystemID : string.
Variable networkInterfaceID : Z.

(** A teardown never panics; it starts with the fetch of the machine,
    fetches no second time and never links a subnet. *)
Lemma unlinkSubnet_shape (linkID : Z) (w : World) :
  exists e w' t,
    unlinkSubnet World client machineSystemID networkInterfaceID linkID w
    = (Done e, w', MachineGet machineSystemID :: t)
    /\ existsb isMachineGet t = false
    /\ existsb isLinkSubnet t = false.
Proof.
  unfold unlinkSubnet. run_go. split_call.
  - destruct (classify (Machine.Status a)); cbn;
      repeat split_call; eauto 10.
  - eauto 10.
Qed.

Lemma filter_existsb_false {A} (f : A -> bool) (l : list A) :
  existsb f l = false -> filter f l = [].
Proof.
  induction l as [|x l IH]; cbn; [reflexivity|].
  destruct (f x); cbn; [discriminate | exact IH].
Qed.

Lemma teardownsSucceed_calls links w w' t :
  teardownsSucceed World client machineSystemID networkInterfaceID
    links w w' t ->
  List.length (filter isMachineGet t) = List.length links
  /\ existsb isLinkSubnet t = false.
Proof.
  induction 1 as [|link rest w w1 t1 w2 t2 Hrun _ [IHn IHl]];
    [split; reflexivity|].
  destruct (unlinkSubnet_shape (NetworkInterfaceLink.ID link) w)
    as (e & w0 & t & Hshape & Hget & Hlink).
  rewrite Hrun in Hshape. injection Hshape as _ _ ->.
  rewrite filter_app, List.length_app, existsb_app. cbn.
  rewrite (filter_existsb_false _ _ Hget), Hlink, IHl, IHn.
  split; reflexivity.
Qed.

Lemma clearExistingLinks_succeed links w w' t :
  teardownsSucceed World client machineSystemID networkInterfaceID
    links w w' t ->
  clearExistingLinks World client machineSystemID networkInterfaceID links w
  = (Done None, w', t).
Proof.
  induction 1 as [|link rest w w1 t1 w2 t2 Hrun _ IH]; [reflexivity|].
  cbn [clearExistingLinks]. unfold M.bind at 1. rewrite Hrun, IH.
  reflexivity.
Qed.

Lemma clearExistingLinks_fail pre link post w w1 t e w2 t2 :
  teardownsSucceed World client machineSystemID networkInterfaceID
    pre w w1 t ->
  unlinkSubnet World client machineSystemID networkInterfaceID
    (NetworkInterfaceLink.ID link) w1 = (Done (Some e), w2, t2) ->
  clearExistingLinks World client machineSystemID networkInterfaceID
    (pre ++ link :: post) w
  = (Done (Some e), w2, t ++ t2).
Proof.
  intros Hpre Hfail.
  induction Hpre as [|l rest w w1 t1 w3 t3 Hrun _ IH].
  - cbn [app clearExistingLinks]. unfold M.bind at 1. rewrite Hfail.
    unfold M.ret. now rewrite app_nil_r.
  - cbn [app clearExistingLinks]. unfold M.bind at 1.
    rewrite Hrun, (IH Hfail). now rewrite app_assoc.
Qed.

(** Every run of the teardowns of a list of links either succeeds on all
    of them or fails at a first one. *)
Lemma teardowns_succeed_or_fail links w :
  (exists w1 t,
      teardownsSucceed World client machineSystemID networkInterfaceID
        links w w1 t)
  \/ (exists pre link post w1 t e w2 t2,
         links = pre ++ link :: post
         /\ teardownsSucceed World client machineSystemID networkInterfaceID
              pre w w1 t
         /\ unlinkSubnet World client machineSystemID networkInterfaceID
              (NetworkInterfaceLink.ID link) w1 = (Done (Some e), w2, t2)).
Proof.
  revert w. induction links as [|link rest IH]; intros w.
  - left. exists w, []. constructor.
  - destruct (unlinkSubnet_shape (NetworkInterfaceLink.ID link) w)
      as ([e|] & w' & t & Hrun & _).
    + right. exists [], link, rest, w, [], e, w'. eexists.
      repeat split; [constructor | exact Hrun].
    + destruct (IH w') as [(w1 & t1 & Hrest)
                          |(pre & l & post & w1 & t1 & e & w2 & t2
                            & -> & Hpre & Hfail)].
      * left. eexists. eexists. econstructor; eassumption.
      * right. exists (link :: pre), l, post, w1. eexists. exists e, w2, t2.
        repeat split; [econstructor; eassumption | exact Hfail].
Qed.

End TeardownShape.

Lemma find_first {A} (f : A -> bool) (pre post : list A) (x : A) :
  f x = true -> (forall y, In y pre -> f y = false) ->
  find f (pre ++ x :: post) = Some x.
Proof.
  intros Hx. induction pre as [|y pre IH]; cbn; intros Hpre.
  - now rewrite Hx.
  - rewrite (Hpre y (or_introl eq_refl)). apply IH.
    intros z Hz. apply Hpre. now right.
Qed.

Lemma find_absent {A} (f : A -> bool) (l : list A) :
  (forall y, In y l -> f y = false) -> find f l = None.
Proof.
  induction l as [|y l IH]; cbn; intros H; [reflexivity|].
  rewrite (H y (or_introl eq_refl)). apply IH.
  intros z Hz. apply H. now right.
Qed.

(* ===================================================================== *)
(** ** Create and read *)
(* ===================================================================== *)

Section BindingFacts.
Context {NC : node.Constants}.
Variable World : Type.
Variable client : Client World.
Variable machineSystemID : string.

(** C3. Create tears down the links the interface has, one teardown per
    link and in their order, and then issues the one LinkSubnet call: with
    N links, the calls before LinkSubnet are those of N teardowns (N
    fetches of the machine among them, no LinkSubnet).  When LinkSubnet
    succeeds the result is the first link of the interface it returned; its
    error is returned otherwise.  When a teardown fails, after the ones
    before it succeeded, its error is returned and LinkSubnet is not
    called.  Every run is of one of these two kinds. *)
Theorem createNetworkInterfaceLink_clears_then_links
    (networkInterface : NetworkInterface.t)
    (params : NetworkInterfaceLinkParams.t) :
  let nid := NetworkInterface.ID networkInterface in
  let create :=
    createNetworkInterfaceLink World client machineSystemID
      networkInterface params in
  let callLink := NetworkInterfaceLinkSubnet machineSystemID nid params in
  (forall w w1 t,
      teardownsSucceed World client machineSystemID nid
        (NetworkInterface.Links networkInterface) w w1 t ->
      List.length (filter isMachineGet t)
      = List.length (NetworkInterface.Links networkInterface)
      /\ existsb isLinkSubnet t = false
      /\ (forall e w2,
             NetworkInterface_LinkSubnet client machineSystemID nid params w1
             = (Err e, w2) ->
             create w = (Done (Err e), w2, t ++ [callLink]))
      /\ (forall created link rest w2,
             NetworkInterface_LinkSubnet client machineSystemID nid params w1
             = (Ok created, w2) ->
             NetworkInterface.Links created = link :: rest ->
             create w = (Done (Ok link), w2, t ++ [callLink])))
  /\ (forall pre link post w w1 t e w2 t2,
         NetworkInterface.Links networkInterface = pre ++ link :: post ->
         teardownsSucceed World client machineSystemID nid pre w w1 t ->
         unlinkSubnet World client machineSystemID nid
           (NetworkInterfaceLink.ID link) w1 = (Done (Some e), w2, t2) ->
         create w = (Done (Err e), w2, t ++ t2)
         /\ existsb isLinkSubnet (t ++ t2) = false)
  /\ (forall w,
         (exists w1 t,
             teardownsSucceed World client machineSystemID nid
               (NetworkInterface.Links networkInterface) w w1 t)
         \/ (exists pre link post w1 t e w2 t2,
                NetworkInterface.Links networkInterface = pre ++ link :: post
                /\ teardownsSucceed World client machineSystemID nid
                     pre w w1 t
                /\ unlinkSubnet World client machineSystemID nid
                     (NetworkInterfaceLink.ID link) w1
                   = (Done (Some e), w2, t2))).
Proof.
  intros nid create callLink. subst nid create callLink.
  split; [|split; [|intros w; apply teardowns_succeed_or_fail]].
  - intros w w1 t Hrun.
    destruct (teardownsSucceed_calls _ _ _ _ _ _ _ _ Hrun) as [Hn Hl].
    repeat split; [exact Hn | exact Hl | |].
    + intros e w2 Hlink. unfold createNetworkInterfaceLink.
      unfold M.bind at 1.
      rewrite (clearExistingLinks_succeed _ _ _ _ _ _ _ _ Hrun).
      run_go. rewrite Hlink. reflexivity.
    + intros created link rest w2 Hlink Hfirst.
      unfold createNetworkInterfaceLink. unfold M.bind at 1.
      rewrite (clearExistingLinks_succeed _ _ _ _ _ _ _ _ Hrun).
      run_go. rewrite Hlink, Hfirst. reflexivity.
  - intros pre link post w w1 t e w2 t2 Hlinks Hpre Hfail. split.
    + unfold createNetworkInterfaceLink. unfold M.bind at 1.
      rewrite Hlinks.
      rewrite (clearExistingLinks_fail _ _ _ _ _ _ post _ _ _ _ _ _
                 Hpre Hfail).
      unfold M.ret. now rewrite app_nil_r.
    + destruct (teardownsSucceed_calls _ _ _ _ _ _ _ _ Hpre) as [_ Hl].
      destruct (unlinkSubnet_shape World client machineSystemID
                  (NetworkInterface.ID networkInterface)
                  (NetworkInterfaceLink.ID link) w1)
        as (e0 & w0 & t0 & Hshape & _ & Hl0).
      rewrite Hfail in Hshape. injection Hshape as _ _ ->.
      rewrite existsb_app, Hl. cbn. exact Hl0.
Qed.

(** C10. After the teardowns and a successful LinkSubnet call, Create
    takes element 0 of the returned interface's links without looking at
    their number: with no link in the answer the access is out of range
    and Create panics, and Create returns at all exactly when the answer
    has at least one link. *)
Theorem createNetworkInterfaceLink_index_unchecked
    (networkInterface created : NetworkInterface.t)
    (params : NetworkInterfaceLinkParams.t) (w w1 w2 : World)
    (t : list Call) :
  let nid := NetworkInterface.ID networkInterface in
  let create :=
    createNetworkInterfaceLink World client machineSystemID
      networkInterface params in
  teardownsSucceed World client machineSystemID nid
    (NetworkInterface.Links networkInterface) w w1 t ->
  NetworkInterface_LinkSubnet client machineSystemID nid params w1
  = (Ok created, w2) ->
  (NetworkInterface.Links created = [] ->
   create w
   = (Panic "runtime error: index out of range [0] with length 0", w2,
      t ++ [NetworkInterfaceLinkSubnet machineSystemID nid params]))
  /\ ((exists r, fst (fst (create w)) = Done r)
      <-> NetworkInterface.Links created <> []).
Proof.
  intros nid create Hrun Hlink. subst nid create.
  assert (E : createNetworkInterfaceLink World client machineSystemID
                networkInterface params w
              = (match NetworkInterface.Links created with
                 | [] => Panic indexOutOfRange0
                 | link :: _ => Done (Ok link)
                 end, w2,
                 t ++ [NetworkInterfaceLinkSubnet machineSystemID
                         (NetworkInterface.ID networkInterface) params])).
  { unfold createNetworkInterfaceLink. unfold M.bind at 1.
    rewrite (clearExistingLinks_succeed _ _ _ _ _ _ _ _ Hrun).
    run_go. rewrite Hlink.
    destruct (NetworkInterface.Links created); reflexivity. }
  rewrite E. split.
  - intros ->. reflexivity.
  - cbn. destruct (NetworkInterface.Links created) as [|link rest].
    + split; [intros [r Hr]; discriminate | congruence].
    + split; [discriminate | intros _; eauto].
Qed.

(** C8. Read fetches the interface and issues no other call, so none
    that mutates.  It returns the first link, in the order of the
    interface's links, whose ID is the one asked for; when no link has that
    ID it fails with an error whose text gives the link ID, the interface
    ID and the machine. *)
Theorem getNetworkInterfaceLink_finds_link
    (networkInterfaceID linkID : Z) (w : World) :
  let read :=
    getNetworkInterfaceLink World client machineSystemID
      networkInterfaceID linkID in
  let callGet := NetworkInterfaceGet machineSystemID networkInterfaceID in
  (forall networkInterface w1,
      NetworkInterface_Get client machineSystemID networkInterfaceID w
      = (Ok networkInterface, w1) ->
      (forall pre link post,
          NetworkInterface.Links networkInterface = pre ++ link :: post ->
          NetworkInterfaceLink.ID link = linkID ->
          (forall other,
              In other pre -> NetworkInterfaceLink.ID other <> linkID) ->
          read w = (Done (Ok link), w1, [callGet]))
      /\ ((forall link,
              In link (NetworkInterface.Links networkInterface) ->
              NetworkInterfaceLink.ID link <> linkID) ->
          read w
          = (Done
               (Err
                  (Errorf
                     ("cannot find link (" ++ fmt_int linkID
                        ++ ") on the network interface ("
                        ++ fmt_int networkInterfaceID
                        ++ ") from machine (" ++ machineSystemID
                        ++ ")")%string)),
             w1, [callGet])))
  /\ snd (read w) = [callGet]
  /\ existsb isMutating (snd (read w)) = false.
Proof.
  intros read callGet. subst read callGet.
  assert (Hlog : snd (getNetworkInterfaceLink World client machineSystemID
                        networkInterfaceID linkID w)
                 = [NetworkInterfaceGet machineSystemID networkInterfaceID]).
  { unfold getNetworkInterfaceLink. run_go. split_call; [|reflexivity].
    now destruct (find _ _). }
  split; [|split; [exact Hlog | now rewrite Hlog]].
  intros networkInterface w1 Hget.
  unfold getNetworkInterfaceLink. run_go. rewrite Hget. split.
  - intros pre link post Hlinks Hid Hpre. rewrite Hlinks.
    rewrite find_first; [reflexivity | now apply Z.eqb_eq |].
    intros other Hin. apply Z.eqb_neq. now apply Hpre.
  - intros Habsent. rewrite find_absent; [reflexivity|].
    intros link Hin. apply Z.eqb_neq. now apply Habsent.
Qed.


End BindingFacts.

(* ===================================================================== *)
(** ** Update and the default gateway *)
(* ===================================================================== *)

Section HandlerFacts.
Context {NC : node.Constants}.
Variable World : Type.
Variable client : Client World.
Variable lookups : Lookups World.


Lemma read_only_calls (t : list Call) :
  existsb isMutating t = false ->
  existsb isClearDefaultGateways t = false
  /\ existsb isSetDefaultGateway t = false.
Proof.
  induction t as [|c t IH]; cbn; [tauto|].
  intros H. apply orb_false_iff in H as [Hc Ht].
  destruct (IH Ht) as [-> ->]. destruct c; cbn in *; split; congruence.
Qed.



End HandlerFacts.

(* ===================================================================== *)
(** ** The theorems on concrete servers *)
(* ===================================================================== *)

(** C1. A fetch error other than "not found" is to reach the caller
    unchanged: the comments of [unlinkSubnet] limit the no-op to a machine
    that does not or no longer exists, and every other error check of the
    file returns its error.  The code does not do so: here the fetch is
    refused with "connection refused", which is no not-found error, and
    the teardown reports success after the fetch, so the error does not
    reach the caller. *)
Lemma unlinkSubnet_fetch_error_swallowed :
  isNotFound Fixture.unreachable = false
  /\ Machine_Get
       (Fixture.client
          (Fixture.withGet (Fixture.healthy 4) (Err Fixture.unreachable)))
       "abc123" 0%nat
     = (Err Fixture.unreachable, 1%nat)
  /\ unlinkSubnet (NC := Fixture.maas) nat
       (Fixture.client
          (Fixture.withGet (Fixture.healthy 4) (Err Fixture.unreachable)))
       "abc123" 7 42 0%nat
     = (Done None, 1%nat, [MachineGet "abc123"])
  /\ fst (fst (unlinkSubnet (NC := Fixture.maas) nat
                 (Fixture.client
                    (Fixture.withGet (Fixture.healthy 4)
                       (Err Fixture.unreachable)))
                 "abc123" 7 42 0%nat))
     <> Done (Some Fixture.unreachable).
Proof.
  repeat split; try reflexivity. cbn. discriminate.
Qed.

Lemma unlinkSubnet_fetch_failure_witness :
  Machine_Get
    (Fixture.client (Fixture.withGet (Fixture.healthy 4) (Err Fixture.gone)))
    "abc123" 0%nat
  = (Err Fixture.gone, 1%nat)
  /\ unlinkSubnet (NC := Fixture.maas) nat
       (Fixture.client
          (Fixture.withGet (Fixture.healthy 4) (Err Fixture.gone)))
       "abc123" 7 42 0%nat
     = (Done None, 1%nat, [MachineGet "abc123"]).
Proof.
  split; [reflexivity|].
  apply (unlinkSubnet_fetch_failure (NC := Fixture.maas) nat
           (Fixture.client
              (Fixture.withGet (Fixture.healthy 4) (Err Fixture.gone)))
           "abc123" 7 42 0%nat 1%nat Fixture.gone).
  reflexivity.
Defined.

Lemma unlinkSubnet_valid_witness :
  In 4 (ValidStates (NC := Fixture.maas))
  /\ unlinkSubnet (NC := Fixture.maas) nat
       (Fixture.client (Fixture.healthy 4)) "abc123" 7 42 0%nat
     = (Done None, 2%nat,
        [MachineGet "abc123"; NetworkInterfaceUnlinkSubnet "abc123" 7 42]).
Proof.
  split; [cbn; tauto|].
  apply (unlinkSubnet_valid (NC := Fixture.maas) nat
           (Fixture.client (Fixture.healthy 4)) "abc123" 7 42
           0%nat 1%nat 2%nat (Machine.mk "abc123" 4)
           (Ok Fixture.eth0_unlinked));
    [reflexivity | cbn; tauto | reflexivity].
Defined.

Lemma unlinkSubnet_transitional_witness :
  In 9 (TransitionalStates (NC := Fixture.maas))
  /\ unlinkSubnet (NC := Fixture.maas) nat
       (Fixture.client (Fixture.healthy 9)) "abc123" 7 42 0%nat
     = (Done None, 4%nat,
        [MachineGet "abc123";
         MachineAbort "abc123" (eventLogMsg "abc123");
         MachineRelease "abc123" MachineReleaseParams.zero;
         NetworkInterfaceUnlinkSubnet "abc123" 7 42]).
Proof.
  split; [cbn; tauto|].
  apply (unlinkSubnet_transitional (NC := Fixture.maas) nat
           (Fixture.client (Fixture.healthy 9)) "abc123" 7 42
           0%nat 1%nat (Machine.mk "abc123" 9) eq_refl
           ltac:(cbn; tauto))
    with (aborted := Machine.mk "abc123" 9) (w2 := 2%nat)
         (released := Machine.mk "abc123" 9) (w3 := 3%nat)
         (r := Ok Fixture.eth0_unlinked);
    reflexivity.
Defined.

Lemma unlinkSubnet_nontransitional_witness :
  In 6 (NonTransitionalStates (NC := Fixture.maas))
  /\ unlinkSubnet (NC := Fixture.maas) nat
       (Fixture.client (Fixture.healthy 6)) "abc123" 7 42 0%nat
     = (Done None, 3%nat,
        [MachineGet "abc123";
         MachineRelease "abc123" MachineReleaseParams.zero;
         NetworkInterfaceUnlinkSubnet "abc123" 7 42]).
Proof.
  split; [cbn; tauto|].
  apply (unlinkSubnet_nontransitional (NC := Fixture.maas) nat
           (Fixture.client (Fixture.healthy 6)) "abc123" 7 42
           0%nat 1%nat (Machine.mk "abc123" 6) eq_refl
           ltac:(cbn; tauto))
    with (released := Machine.mk "abc123" 6) (w2 := 2%nat)
         (r := Ok Fixture.eth0_unlinked);
    reflexivity.
Defined.

Lemma unlinkSubnet_unknown_witness :
  ~ In 23 (ValidStates (NC := Fixture.maas)
             ++ TransitionalStates (NC := Fixture.maas)
             ++ NonTransitionalStates (NC := Fixture.maas))
  /\ unlinkSubnet (NC := Fixture.maas) nat
       (Fixture.client (Fixture.healthy 23)) "abc123" 7 42 0%nat
     = (Done
          (Some (Errorf "cannot unlink subnet from machine in status 23")),
        1%nat, [MachineGet "abc123"]).
Proof.
  assert (H : ~ In 23 (ValidStates (NC := Fixture.maas)
                         ++ TransitionalStates (NC := Fixture.maas)
                         ++ NonTransitionalStates (NC := Fixture.maas)))
    by (cbn; intuition discriminate).
  split; [exact H|].
  apply (unlinkSubnet_unknown (NC := Fixture.maas) nat
           (Fixture.client (Fixture.healthy 23)) "abc123" 7 42
           0%nat 1%nat (Machine.mk "abc123" 23) eq_refl H).
Defined.

(** The two links of [eth0] are torn down one after the other on a machine
    in status Ready. *)
Lemma eth0_teardowns :
  teardownsSucceed (NC := Fixture.maas) nat
    (Fixture.client (Fixture.healthy 4)) "abc123" 7
    [Fixture.link42; Fixture.link43] 0%nat 4%nat
    ([MachineGet "abc123"; NetworkInterfaceUnlinkSubnet "abc123" 7 42]
       ++ [MachineGet "abc123"; NetworkInterfaceUnlinkSubnet "abc123" 7 43]
       ++ []).
Proof.
  apply teardowns_cons with (w1 := 2%nat); [reflexivity|].
  apply teardowns_cons with (w1 := 4%nat); [reflexivity|].
  apply teardowns_nil.
Defined.

Lemma createNetworkInterfaceLink_clears_then_links_witness :
  createNetworkInterfaceLink (NC := Fixture.maas) nat
    (Fixture.client (Fixture.healthy 4)) "abc123" Fixture.eth0
    (NetworkInterfaceLinkParams.mk 3 "STATIC" false "10.0.0.5") 0%nat
  = (Done (Ok Fixture.link42), 5%nat,
     [MachineGet "abc123"; NetworkInterfaceUnlinkSubnet "abc123" 7 42;
      MachineGet "abc123"; NetworkInterfaceUnlinkSubnet "abc123" 7 43;
      NetworkInterfaceLinkSubnet "abc123" 7
        (NetworkInterfaceLinkParams.mk 3 "STATIC" false "10.0.0.5")]).
Proof.
  destruct (createNetworkInterfaceLink_clears_then_links
              (NC := Fixture.maas) nat
              (Fixture.client (Fixture.healthy 4)) "abc123" Fixture.eth0
              (NetworkInterfaceLinkParams.mk 3 "STATIC" false "10.0.0.5"))
    as [Hok _].
  destruct (Hok 0%nat 4%nat _ eth0_teardowns) as (_ & _ & _ & Hfirst).
  exact (Hfirst Fixture.eth0 Fixture.link42 [Fixture.link43] 5%nat
           eq_refl eq_refl).
Defined.

Lemma createNetworkInterfaceLink_index_unchecked_witness :
  NetworkInterface.Links Fixture.eth0_unlinked = []
  /\ createNetworkInterfaceLink (NC := Fixture.maas) nat
       (Fixture.client
          (Fixture.withLinkSubnet (Fixture.healthy 4)
             (Ok Fixture.eth0_unlinked)))
       "abc123" Fixture.eth0
       (NetworkInterfaceLinkParams.mk 3 "AUTO" false "") 0%nat
     = (Panic "runtime error: index out of range [0] with length 0", 5%nat,
        [MachineGet "abc123"; NetworkInterfaceUnlinkSubnet "abc123" 7 42;
         MachineGet "abc123"; NetworkInterfaceUnlinkSubnet "abc123" 7 43;
         NetworkInterfaceLinkSubnet "abc123" 7
           (NetworkInterfaceLinkParams.mk 3 "AUTO" false "")]).
Proof.
  split; [reflexivity|].
  refine (proj1
            (createNetworkInterfaceLink_index_unchecked
               (NC := Fixture.maas) nat
               (Fixture.client
                  (Fixture.withLinkSubnet (Fixture.healthy 4)
                     (Ok Fixture.eth0_unlinked)))
               "abc123" Fixture.eth0 Fixture.eth0_unlinked
               (NetworkInterfaceLinkParams.mk 3 "AUTO" false "")
               0%nat 4%nat 5%nat
               ([MachineGet "abc123";
                 NetworkInterfaceUnlinkSubnet "abc123" 7 42]
                  ++ [MachineGet "abc123";
                      NetworkInterfaceUnlinkSubnet "abc123" 7 43]
                  ++ [])
               _ eq_refl)
            eq_refl).
  apply teardowns_cons with (w1 := 2%nat); [reflexivity|].
  apply teardowns_cons with (w1 := 4%nat); [reflexivity|].
  apply teardowns_nil.
Defined.

Lemma getNetworkInterfaceLink_finds_link_witness :
  getNetworkInterfaceLink nat (Fixture.client (Fixture.healthy 4))
    "abc123" 7 43 0%nat
  = (Done (Ok Fixture.link43), 1%nat, [NetworkInterfaceGet "abc123" 7])
  /\ getNetworkInterfaceLink nat (Fixture.client (Fixture.healthy 4))
       "abc123" 7 44 0%nat
     = (Done
          (Err
             (Errorf
                "cannot find link (44) on the network interface (7) from machine (abc123)")),
        1%nat, [NetworkInterfaceGet "abc123" 7]).
Proof.
  split.
  - destruct (getNetworkInterfaceLink_finds_link nat
                (Fixture.client (Fixture.healthy 4)) "abc123" 7 43 0%nat)
      as [Hread _].
    destruct (Hread Fixture.eth0 1%nat eq_refl) as [Hfound _].
    apply (Hfound [Fixture.link42] Fixture.link43 [] eq_refl eq_refl).
    intros other [<-|[]]. cbn. lia.
  - destruct (getNetworkInterfaceLink_finds_link nat
                (Fixture.client (Fixture.healthy 4)) "abc123" 7 44 0%nat)
      as [Hread _].
    destruct (Hread Fixture.eth0 1%nat eq_refl) as [_ Habsent].
    apply Habsent.
    intros link [<-|[<-|[]]]; cbn; lia.
Defined.



(* ===================================================================== *)
(** ** More on the teardown *)
(* ===================================================================== *)

Section TeardownLog.
Context {NC : node.Constants}.
Variable World : Type.
Variable client : Client World.
Variable machineSystemID : string.
Variables networkInterfaceID linkID : Z.

(** X1. A teardown always returns (it never panics).  Its log starts with
    the fetch of the machine, and what follows is one of seven sequences:
    nothing; unlink; abort; abort, release; abort, release, unlink;
    release; release, unlink.  So there is one fetch, at most three further
    calls, an unlink only as the last call and only for the caller's
    machine, interface and link, and an abort always carries the message
    built from the system ID it is sent to. *)
Theorem unlinkSubnet_log_shapes (w : World) :
  exists e w' t,
    unlinkSubnet World client machineSystemID networkInterfaceID linkID w
    = (Done e, w', MachineGet machineSystemID :: t)
    /\ (t = []
        \/ t = [NetworkInterfaceUnlinkSubnet
                  machineSystemID networkInterfaceID linkID]
        \/ (exists a, t = [MachineAbort a (eventLogMsg a)])
        \/ (exists a r,
               t = [MachineAbort a (eventLogMsg a);
                    MachineRelease r MachineReleaseParams.zero])
        \/ (exists a r,
               t = [MachineAbort a (eventLogMsg a);
                    MachineRelease r MachineReleaseParams.zero;
                    NetworkInterfaceUnlinkSubnet
                      machineSystemID networkInterfaceID linkID])
        \/ (exists r, t = [MachineRelease r MachineReleaseParams.zero])
        \/ (exists r,
               t = [MachineRelease r MachineReleaseParams.zero;
                    NetworkInterfaceUnlinkSubnet
                      machineSystemID networkInterfaceID linkID])).
Proof.
  unfold unlinkSubnet. run_go. split_call.
  - destruct (classify (Machine.Status a)); cbn; repeat split_call;
      do 3 eexists; (split; [reflexivity|]); eauto 12.
  - do 3 eexists. split; [reflexivity|]. now left.
Qed.

(** X2. When the machine could be fetched, a teardown that reports success
    has issued the unlink call for the caller's machine, interface and
    link as its last call, the server accepted it, and no other unlink was
    issued. *)
Theorem unlinkSubnet_success_means_unlinked
    (w w1 w' : World) (machine : Machine.t) (t : list Call) :
  Machine_Get client machineSystemID w = (Ok machine, w1) ->
  unlinkSubnet World client machineSystemID networkInterfaceID linkID w
  = (Done None, w', t) ->
  exists pre w2 unlinked,
    t = pre ++ [NetworkInterfaceUnlinkSubnet
                  machineSystemID networkInterfaceID linkID]
    /\ NetworkInterface_UnlinkSubnet client
         machineSystemID networkInterfaceID linkID w2 = (Ok unlinked, w')
    /\ (forall s n l, ~ In (NetworkInterfaceUnlinkSubnet s n l) pre).
Proof.
  intros Hget. unfold unlinkSubnet. run_go. rewrite Hget.
  destruct (classify (Machine.Status machine)); cbn;
    repeat split_call; intros H; try discriminate;
    injection H as <- <-.
  - exists [MachineGet machineSystemID]. do 2 eexists.
    split; [reflexivity|]. split; [eassumption|].
    intros s n l [E|[]]; discriminate.
  - eexists [MachineGet machineSystemID; _; _]. do 2 eexists.
    split; [reflexivity|]. split; [eassumption|].
    intros s n l [E|[E|[E|[]]]]; discriminate.
  - eexists [MachineGet machineSystemID; _]. do 2 eexists.
    split; [reflexivity|]. split; [eassumption|].
    intros s n l [E|[E|[]]]; discriminate.
Qed.

End TeardownLog.

(* ===================================================================== *)
(** ** More on create and read *)
(* ===================================================================== *)

Section BindingMore.
Context {NC : node.Constants}.
Variable World : Type.
Variable client : Client World.
Variable machineSystemID : string.

(** X3. On an interface without links Create does not look at the machine:
    its one call is LinkSubnet, whatever state the machine is in. *)
Theorem createNetworkInterfaceLink_no_links
    (networkInterface : NetworkInterface.t)
    (params : NetworkInterfaceLinkParams.t) (w : World) :
  NetworkInterface.Links networkInterface = [] ->
  snd (createNetworkInterfaceLink World client machineSystemID
         networkInterface params w)
  = [NetworkInterfaceLinkSubnet machineSystemID
       (NetworkInterface.ID networkInterface) params].
Proof.
  intros Hnone. unfold createNetworkInterfaceLink. rewrite Hnone.
  run_go. cbn. split_call; [|reflexivity].
  now destruct (NetworkInterface.Links a).
Qed.

(** X4. On an interface that has a link, Create refuses as soon as the
    machine is in a status the teardown does not know: the error of the
    teardown comes back, and nothing is unlinked or linked. *)
Theorem createNetworkInterfaceLink_unknown_status
    (networkInterface : NetworkInterface.t)
    (params : NetworkInterfaceLinkParams.t) (w w1 : World)
    (machine : Machine.t) (link : NetworkInterfaceLink.t)
    (rest : list NetworkInterfaceLink.t) :
  NetworkInterface.Links networkInterface = link :: rest ->
  Machine_Get client machineSystemID w = (Ok machine, w1) ->
  ~ In (Machine.Status machine)
       (ValidStates ++ TransitionalStates ++ NonTransitionalStates) ->
  createNetworkInterfaceLink World client machineSystemID
    networkInterface params w
  = (Done
       (Err
          (Errorf
             ("cannot unlink subnet from machine in status "
                ++ node.Status_v (Machine.Status machine))%string)),
     w1, [MachineGet machineSystemID]).
Proof.
  intros Hlinks Hget Hst.
  unfold createNetworkInterfaceLink. rewrite Hlinks.
  cbn [clearExistingLinks]. unfold unlinkSubnet. run_go.
  rewrite Hget, (classify_Unknown _ Hst). reflexivity.
Qed.

(** With a machine that cannot be fetched, every teardown is a no-op. *)
Lemma clearExistingLinks_machine_gone
    (networkInterfaceID : Z) (links : list NetworkInterfaceLink.t) :
  (forall w, exists e w1,
        Machine_Get client machineSystemID w = (Err e, w1)) ->
  forall w, exists w1,
    clearExistingLinks World client machineSystemID networkInterfaceID
      links w
    = (Done None, w1,
       repeat (MachineGet machineSystemID) (List.length links)).
Proof.
  intros Hgone. induction links as [|link rest IH]; intros w.
  - exists w. reflexivity.
  - destruct (Hgone w) as (e & w1 & Hget).
    destruct (IH w1) as (w2 & Hrest). exists w2.
    cbn [clearExistingLinks]. unfold M.bind at 1.
    unfold unlinkSubnet. run_go. rewrite Hget, Hrest. reflexivity.
Qed.

(** X5. When the machine cannot be fetched, the teardowns of Create unlink
    nothing (each one stops after its failed fetch and counts as done), and
    Create goes on to the LinkSubnet call all the same. *)
Theorem createNetworkInterfaceLink_machine_gone
    (networkInterface : NetworkInterface.t)
    (params : NetworkInterfaceLinkParams.t) :
  (forall w, exists e w1,
        Machine_Get client machineSystemID w = (Err e, w1)) ->
  forall w,
    snd (createNetworkInterfaceLink World client machineSystemID
           networkInterface params w)
    = repeat (MachineGet machineSystemID)
        (List.length (NetworkInterface.Links networkInterface))
      ++ [NetworkInterfaceLinkSubnet machineSystemID
            (NetworkInterface.ID networkInterface) params].
Proof.
  intros Hgone w. unfold createNetworkInterfaceLink. unfold M.bind at 1.
  destruct (clearExistingLinks_machine_gone
              (NetworkInterface.ID networkInterface)
              (NetworkInterface.Links networkInterface) Hgone w)
    as (w1 & ->).
  run_go. split_call; [|reflexivity].
  now destruct (NetworkInterface.Links a).
Qed.

(** X6. A link that Create returns is the first link of an interface the
    server answered to LinkSubnet; that call is the last of the log and the
    only LinkSubnet in it, and before it the machine was fetched once per
    link the interface had. *)
Theorem createNetworkInterfaceLink_returns_served_link
    (networkInterface : NetworkInterface.t)
    (params : NetworkInterfaceLinkParams.t) (w w' : World)
    (link : NetworkInterfaceLink.t) (t : list Call) :
  createNetworkInterfaceLink World client machineSystemID
    networkInterface params w
  = (Done (Ok link), w', t) ->
  exists pre w1 created rest,
    t = pre ++ [NetworkInterfaceLinkSubnet machineSystemID
                  (NetworkInterface.ID networkInterface) params]
    /\ NetworkInterface_LinkSubnet client machineSystemID
         (NetworkInterface.ID networkInterface) params w1
       = (Ok created, w')
    /\ NetworkInterface.Links created = link :: rest
    /\ List.length (filter isMachineGet pre)
       = List.length (NetworkInterface.Links networkInterface)
    /\ existsb isLinkSubnet pre = false.
Proof.
  intros Hrun.
  destruct (teardowns_succeed_or_fail World client machineSystemID
              (NetworkInterface.ID networkInterface)
              (NetworkInterface.Links networkInterface) w)
    as [(w1 & pre & Hok)
       |(p & l & post & w1 & t1 & e & w2 & t2 & Hlinks & Hpre & Hfail)].
  - destruct (teardownsSucceed_calls _ _ _ _ _ _ _ _ Hok) as [Hn Hl].
    revert Hrun. unfold createNetworkInterfaceLink. unfold M.bind at 1.
    rewrite (clearExistingLinks_succeed _ _ _ _ _ _ _ _ Hok).
    run_go.
    destruct (NetworkInterface_LinkSubnet client machineSystemID
                (NetworkInterface.ID networkInterface) params w1)
      as [[created|e] w2] eqn:Hlink; [|discriminate].
    destruct (NetworkInterface.Links created) as [|first rest] eqn:Hfirst;
      [discriminate|].
    intros H. injection H as <- <- <-.
    exists pre, w1, created, rest. repeat split; assumption.
  - revert Hrun. unfold createNetworkInterfaceLink. unfold M.bind at 1.
    rewrite Hlinks.
    rewrite (clearExistingLinks_fail _ _ _ _ _ _ post _ _ _ _ _ _
               Hpre Hfail).
    discriminate.
Qed.

(** X7. When the fetch of the interface fails, Read returns that very
    error and the fetch is its only call. *)
Theorem getNetworkInterfaceLink_fetch_error
    (networkInterfaceID linkID : Z) (w w1 : World) (e : error) :
  NetworkInterface_Get client machineSystemID networkInterfaceID w
  = (Err e, w1) ->
  getNetworkInterfaceLink World client machineSystemID
    networkInterfaceID linkID w
  = (Done (Err e), w1,
     [NetworkInterfaceGet machineSystemID networkInterfaceID]).
Proof.
  intros Hget. unfold getNetworkInterfaceLink. run_go.
  now rewrite Hget.
Qed.

(** X8. A link that Read returns has the ID that was asked for and is one
    of the links of the interface the server answered; and Read returns a
    link whenever the fetched interface has one with that ID. *)
Theorem getNetworkInterfaceLink_sound_complete
    (networkInterfaceID linkID : Z) (w : World) :
  (forall link w' t,
      getNetworkInterfaceLink World client machineSystemID
        networkInterfaceID linkID w
      = (Done (Ok link), w', t) ->
      NetworkInterfaceLink.ID link = linkID
      /\ exists fetched,
           NetworkInterface_Get client machineSystemID networkInterfaceID w
           = (Ok fetched, w')
           /\ In link (NetworkInterface.Links fetched))
  /\ (forall fetched w' candidate,
         NetworkInterface_Get client machineSystemID networkInterfaceID w
         = (Ok fetched, w') ->
         In candidate (NetworkInterface.Links fetched) ->
         NetworkInterfaceLink.ID candidate = linkID ->
         exists link,
           fst (fst (getNetworkInterfaceLink World client machineSystemID
                       networkInterfaceID linkID w))
           = Done (Ok link)).
Proof.
  split.
  - intros link w' t. unfold getNetworkInterfaceLink. run_go.
    destruct (NetworkInterface_Get client machineSystemID
                networkInterfaceID w) as [[fetched|e] w1];
      [|discriminate].
    destruct (find _ _) as [found|] eqn:Hfind; [|discriminate].
    intros H. injection H as <- <- <-.
    apply find_some in Hfind as [Hin Hid]. apply Z.eqb_eq in Hid.
    split; [exact Hid|]. now exists fetched.
  - intros fetched w' candidate Hget Hin Hid.
    unfold getNetworkInterfaceLink. run_go. rewrite Hget.
    destruct (find _ _) as [found|] eqn:Hfind; [now exists found|].
    apply (find_none _ _ Hfind) in Hin. apply Z.eqb_neq in Hin.
    contradiction.
Qed.

End BindingMore.

(* ===================================================================== *)
(** ** The resource id: printed by Create, parsed by the other handlers *)
(* ===================================================================== *)

Lemma of_uint_acc_ge (u : Decimal.uint) (acc : positive) :
  Z.pos acc <= Z.pos (Pos.of_uint_acc u acc).
Proof.
  revert acc. induction u; intros acc; cbn [Pos.of_uint_acc];
    [lia | ..];
    match goal with
    | |- _ <= Z.pos (Pos.of_uint_acc _ ?a) =>
        specialize (IHu a); lia
    end.
Qed.

(** The digit loop on the text of a number: the number when it fits 64
    bits, a range error otherwise. *)
Lemma digits_of_uint_acc (u : Decimal.uint) (acc : positive) :
  Z.pos acc <= strconv.maxUint64 ->
  strconv.digits (NilEmpty.string_of_uint u) (Z.pos acc)
  = if Z.pos (Pos.of_uint_acc u acc) <=? strconv.maxUint64
    then strconv.Value (Z.pos (Pos.of_uint_acc u acc))
    else strconv.ErrRange.
Proof.
  revert acc.
  induction u; intros acc Hacc;
    cbn [NilEmpty.string_of_uint Pos.of_uint_acc strconv.digits];
    [ apply Z.leb_le in Hacc; now rewrite Hacc | .. ];
    digit_value;
    match goal with
    | |- context [Pos.of_uint_acc u ?a] =>
        pose proof (of_uint_acc_ge u a) as Hge;
        specialize (IHu a);
        set (V := Z.pos (Pos.of_uint_acc u a)) in *
    end;
    unfold strconv.cutoff, strconv.maxUint64 in *;
    change (2 ^ 64 - 1) with 18446744073709551615 in *;
    change (18446744073709551615 / 10 + 1) with 1844674407370955162 in *;
    (destruct (Z.leb_spec 1844674407370955162 (Z.pos acc));
     [ destruct (Z.leb_spec V 18446744073709551615); [lia | reflexivity]
     | match goal with
       | |- (if 18446744073709551615 <? ?n1 then _ else _) = _ =>
           destruct (Z.ltb_spec 18446744073709551615 n1);
           [ destruct (Z.leb_spec V 18446744073709551615);
             [lia | reflexivity]
           | rewrite <- IHu by lia; f_equal; lia ]
       end ]).
Qed.

Lemma digits_of_uint (u : Decimal.uint) :
  strconv.digits (NilEmpty.string_of_uint u) 0
  = if Z.of_N (Pos.of_uint u) <=? strconv.maxUint64
    then strconv.Value (Z.of_N (Pos.of_uint u))
    else strconv.ErrRange.
Proof.
  induction u;
    cbn [NilEmpty.string_of_uint Pos.of_uint strconv.digits Z.of_N];
    [reflexivity | ..];
    digit_value;
    change (strconv.cutoff <=? 0) with false; cbv iota;
    [ change (strconv.maxUint64 <? 10 * 0 + 0) with false; exact IHu | .. ];
    match goal with
    | |- context [strconv.digits _ ?k] =>
        change (strconv.maxUint64 <? k) with false; cbv iota
    end;
    match goal with
    | |- strconv.digits _ ?k = _ =>
        match goal with
        | |- context [Pos.of_uint_acc u ?a] =>
            change k with (Z.pos a);
            apply digits_of_uint_acc; unfold strconv.maxUint64; lia
        end
    end.
Qed.

(** [ParseUint] on the decimal text of a positive number. *)
Lemma ParseUint_of_positive (p : positive) :
  strconv.ParseUint (NilEmpty.string_of_uint (Pos.to_uint p))
  = if Z.pos p <=? strconv.maxUint64
    then strconv.Value (Z.pos p) else strconv.ErrRange.
Proof.
  pose proof (digits_of_uint (Pos.to_uint p)) as Hd.
  rewrite DecimalPos.Unsigned.of_to in Hd. cbn [Z.of_N] in Hd.
  pose proof (DecimalPos.Unsigned.to_uint_nonnil p) as Hnil.
  destruct (Pos.to_uint p); [congruence | ..]; exact Hd.
Qed.

(** [strconv.Atoi] on what [%v] prints of an integer: the integer when a
    64-bit [int] holds it, a range error otherwise. *)
Lemma Atoi_fmt_int_cases (z : Z) :
  strconv.Atoi (fmt_int z)
  = if (- 2 ^ 63 <=? z) && (z <=? 2 ^ 63 - 1) then Ok z
    else Err (NumError "Atoi" (fmt_int z) "value out of range").
Proof.
  unfold fmt_int, strconv.Atoi.
  destruct z as [|p|p]; cbn [Z.to_int NilZero.string_of_int];
    [reflexivity | ..];
    pose proof (ParseUint_of_positive p) as Hp;
    pose proof (DecimalPos.Unsigned.to_uint_nonnil p) as Hnil;
    unfold NilZero.string_of_uint;
    (destruct (Pos.to_uint p); [congruence | ..]);
    unfold strconv.ParseInt;
    cbn [NilEmpty.string_of_uint Ascii.eqb Bool.eqb orb negb andb] in *;
    rewrite Hp; unfold strconv.maxUint64;
    change (2 ^ 64 - 1) with 18446744073709551615;
    change (2 ^ 63 - 1) with 9223372036854775807;
    change (2 ^ 63) with 9223372036854775808;
    repeat match goal with
      | |- context [?a <=? ?b] => destruct (Z.leb_spec a b)
      | |- context [?a <? ?b] => destruct (Z.ltb_spec a b)
      end;
    cbn [andb negb]; try lia; reflexivity.
Qed.

Lemma Atoi_fmt_int_range (z : Z) :
  - 2 ^ 63 <= z <= 2 ^ 63 - 1 ->
  strconv.Atoi (fmt_int z) = Ok z.
Proof.
  intros [Hlo Hhi]. rewrite Atoi_fmt_int_cases.
  apply Z.leb_le in Hlo, Hhi. now rewrite Hlo, Hhi.
Qed.

(** X9. The text Create stores as resource id ([%v] of the link ID) is
    parsed by [strconv.Atoi] into the same link ID, for every ID a 64-bit
    [int] can hold; the text of any other integer is refused as out of
    range. *)
Theorem Atoi_fmt_int (z : Z) :
  (- 2 ^ 63 <= z <= 2 ^ 63 - 1 -> strconv.Atoi (fmt_int z) = Ok z)
  /\ (z < - 2 ^ 63 \/ 2 ^ 63 - 1 < z ->
      strconv.Atoi (fmt_int z)
      = Err (NumError "Atoi" (fmt_int z) "value out of range")).
Proof.
  rewrite Atoi_fmt_int_cases. split.
  - intros [Hlo Hhi]. apply Z.leb_le in Hlo, Hhi. now rewrite Hlo, Hhi.
  - intros [Hlo|Hhi].
    + apply Z.leb_gt in Hlo. now rewrite Hlo.
    + apply Z.leb_gt in Hhi. rewrite Hhi. now rewrite andb_false_r.
Qed.

(** A resource id that parses is the text of no other integer. *)
Lemma Atoi_fmt_int_inv (z n : Z) :
  strconv.Atoi (fmt_int z) = Ok n -> n = z.
Proof.
  rewrite Atoi_fmt_int_cases.
  destruct ((- 2 ^ 63 <=? z) && (z <=? 2 ^ 63 - 1)); [|discriminate].
  intros H. now injection H.
Qed.

(* ===================================================================== *)
(** ** More on the handlers *)
(* ===================================================================== *)

Section HandlerMore.
Context {NC : node.Constants}.
Variable World : Type.
Variable client : Client World.
Variable lookups : Lookups World.

(** What the read handler can come to: it returns; it succeeds with the
    address of a link whose ID is the parsed resource id written to
    ip_address, or it fails and leaves the resource data as they were. *)
Lemma resourceNetworkInterfaceLinkRead_outcome
    (d : ResourceData.t) (w : World) :
  exists diags d' w' t,
    resourceNetworkInterfaceLinkRead World client lookups d w
    = (Done (diags, d'), w', t)
    /\ existsb isMutating t = false
    /\ ((diags = []
         /\ exists link,
              strconv.Atoi (ResourceData.Id d)
              = Ok (NetworkInterfaceLink.ID link)
              /\ d' = ResourceData.Set_ip_address d
                        (NetworkInterfaceLink.IPAddress link))
        \/ (diags <> [] /\ d' = d)).
Proof.
  unfold resourceNetworkInterfaceLinkRead.
  destruct (strconv.Atoi (ResourceData.Id d)) as [linkID|err] eqn:Hid.
  2:{ unfold M.ret. do 4 eexists. split; [reflexivity|].
      split; [reflexivity|]. right. split; [discriminate | reflexivity]. }
  unfold M.bind at 1, M.helper at 1.
  destruct (getMachineOrDeviceSystemID lookups d w) as [[systemID|err] w1].
  2:{ unfold M.ret. do 4 eexists. split; [reflexivity|].
      split; [reflexivity|]. right. split; [discriminate | reflexivity]. }
  unfold M.bind at 1, M.helper at 1.
  destruct (getNetworkInterface lookups systemID
              (ResourceData.network_interface d) w1)
    as [[networkInterface|err] w2].
  2:{ unfold M.ret. do 4 eexists. split; [reflexivity|].
      split; [reflexivity|]. right. split; [discriminate | reflexivity]. }
  unfold getNetworkInterfaceLink. run_go.
  destruct (NetworkInterface_Get client systemID
              (NetworkInterface.ID networkInterface) w2)
    as [[fetched|err] w3].
  2:{ do 4 eexists. split; [reflexivity|].
      split; [reflexivity|]. right. split; [discriminate | reflexivity]. }
  destruct (find _ _) as [link|] eqn:Hfind.
  - apply find_some in Hfind as [_ Hlink]. apply Z.eqb_eq in Hlink.
    do 4 eexists. split; [reflexivity|]. split; [reflexivity|].
    left. split; [reflexivity|]. exists link. now rewrite Hlink.
  - do 4 eexists. split; [reflexivity|].
    split; [reflexivity|]. right. split; [discriminate | reflexivity].
Qed.

(** X10. A resource id that is not the text of an integer makes Read,
    Update and Delete fail with the parse error before anything else
    happens: no lookup runs, no call is issued, the resource data are
    unchanged. *)
Theorem handlers_reject_malformed_id
    (d : ResourceData.t) (w : World) (e : error) :
  strconv.Atoi (ResourceData.Id d) = Err e ->
  resourceNetworkInterfaceLinkRead World client lookups d w
  = (Done (FromErr e, d), w, [])
  /\ resourceNetworkInterfaceLinkUpdate World client lookups d w
     = (Done (FromErr e, d), w, [])
  /\ resourceNetworkInterfaceLinkDelete World client lookups d w
     = (Done (FromErr e, d), w, []).
Proof.
  intros Hid.
  unfold resourceNetworkInterfaceLinkRead,
    resourceNetworkInterfaceLinkUpdate, resourceNetworkInterfaceLinkDelete.
  rewrite Hid. repeat split.
Qed.

(** X11. Create resolves the machine, the interface and the subnet before
    it issues any call: when one of the three lookups fails, Create
    returns that error, the resource data are unchanged and no call was
    issued, so the links the interface has are still there. *)
Theorem resourceNetworkInterfaceLinkCreate_resolves_first
    (d : ResourceData.t) (w : World) :
  (forall e w1,
      getMachineOrDeviceSystemID lookups d w = (Err e, w1) ->
      resourceNetworkInterfaceLinkCreate World client lookups d w
      = (Done (FromErr e, d), w1, []))
  /\ (forall systemID w1 e w2,
         getMachineOrDeviceSystemID lookups d w = (Ok systemID, w1) ->
         getNetworkInterface lookups systemID
           (ResourceData.network_interface d) w1 = (Err e, w2) ->
         resourceNetworkInterfaceLinkCreate World client lookups d w
         = (Done (FromErr e, d), w2, []))
  /\ (forall systemID w1 networkInterface w2 e w3,
         getMachineOrDeviceSystemID lookups d w = (Ok systemID, w1) ->
         getNetworkInterface lookups systemID
           (ResourceData.network_interface d) w1
         = (Ok networkInterface, w2) ->
         getSubnet lookups (ResourceData.subnet d) w2 = (Err e, w3) ->
         resourceNetworkInterfaceLinkCreate World client lookups d w
         = (Done (FromErr e, d), w3, [])).
Proof.
  unfold resourceNetworkInterfaceLinkCreate. repeat split.
  - intros e w1 Hsys. run_go. now rewrite Hsys.
  - intros systemID w1 e w2 Hsys Hif. run_go. now rewrite Hsys, Hif.
  - intros systemID w1 networkInterface w2 e w3 Hsys Hif Hsub. run_go.
    now rewrite Hsys, Hif, Hsub.
Qed.

(** X12. Read, Update and Delete issue no call when the machine or the
    interface of the resource does not resolve; the lookup error comes
    back and the resource data are unchanged. *)
Theorem handlers_unresolved_issue_no_call
    (d : ResourceData.t) (w : World) (linkID : Z) :
  strconv.Atoi (ResourceData.Id d) = Ok linkID ->
  (forall e w1,
      getMachineOrDeviceSystemID lookups d w = (Err e, w1) ->
      resourceNetworkInterfaceLinkRead World client lookups d w
      = (Done (FromErr e, d), w1, [])
      /\ resourceNetworkInterfaceLinkUpdate World client lookups d w
         = (Done (FromErr e, d), w1, [])
      /\ resourceNetworkInterfaceLinkDelete World client lookups d w
         = (Done (FromErr e, d), w1, []))
  /\ (forall systemID w1 e w2,
         getMachineOrDeviceSystemID lookups d w = (Ok systemID, w1) ->
         getNetworkInterface lookups systemID
           (ResourceData.network_interface d) w1 = (Err e, w2) ->
         resourceNetworkInterfaceLinkRead World client lookups d w
         = (Done (FromErr e, d), w2, [])
         /\ resourceNetworkInterfaceLinkUpdate World client lookups d w
            = (Done (FromErr e, d), w2, [])
         /\ resourceNetworkInterfaceLinkDelete World client lookups d w
            = (Done (FromErr e, d), w2, [])).
Proof.
  intros Hid.
  unfold resourceNetworkInterfaceLinkRead,
    resourceNetworkInterfaceLinkUpdate, resourceNetworkInterfaceLinkDelete.
  rewrite Hid. split.
  - intros e w1 Hsys. run_go. rewrite Hsys. repeat split.
  - intros systemID w1 e w2 Hsys Hif. run_go. rewrite Hsys, Hif.
    repeat split.
Qed.

(** X13. Delete is the teardown of the resolved interface's link whose ID
    is the parsed resource id: its log is the teardown's, its diagnostics
    are the teardown's error, or none when the teardown succeeded, and the
    resource data are unchanged. *)
Theorem resourceNetworkInterfaceLinkDelete_delegates
    (d : ResourceData.t) (w w1 w2 w3 : World) (linkID : Z)
    (systemID : string) (networkInterface : NetworkInterface.t)
    (e : option error) (t : list Call) :
  strconv.Atoi (ResourceData.Id d) = Ok linkID ->
  getMachineOrDeviceSystemID lookups d w = (Ok systemID, w1) ->
  getNetworkInterface lookups systemID (ResourceData.network_interface d) w1
  = (Ok networkInterface, w2) ->
  unlinkSubnet World client systemID
    (NetworkInterface.ID networkInterface) linkID w2 = (Done e, w3, t) ->
  resourceNetworkInterfaceLinkDelete World client lookups d w
  = (Done (match e with Some err => FromErr err | None => [] end, d),
     w3, t).
Proof.
  intros Hid Hsys Hif Hrun.
  unfold resourceNetworkInterfaceLinkDelete. rewrite Hid.
  unfold M.bind at 1, M.helper at 1. rewrite Hsys.
  unfold M.bind at 1, M.helper at 1. rewrite Hif.
  unfold M.bind at 1, deleteNetworkInterfaceLink. rewrite Hrun.
  destruct e; unfold M.ret; cbn; now rewrite app_nil_r.
Qed.

(** X14. Deleting the link of a machine that cannot be fetched succeeds:
    no diagnostics, and the failed fetch is the only call. *)
Theorem resourceNetworkInterfaceLinkDelete_machine_gone
    (d : ResourceData.t) (w w1 w2 w3 : World) (linkID : Z)
    (systemID : string) (networkInterface : NetworkInterface.t)
    (e : error) :
  strconv.Atoi (ResourceData.Id d) = Ok linkID ->
  getMachineOrDeviceSystemID lookups d w = (Ok systemID, w1) ->
  getNetworkInterface lookups systemID (ResourceData.network_interface d) w1
  = (Ok networkInterface, w2) ->
  Machine_Get client systemID w2 = (Err e, w3) ->
  resourceNetworkInterfaceLinkDelete World client lookups d w
  = (Done ([], d), w3, [MachineGet systemID]).
Proof.
  intros Hid Hsys Hif Hget.
  unfold resourceNetworkInterfaceLinkDelete. rewrite Hid.
  unfold M.bind at 1, M.helper at 1. rewrite Hsys.
  unfold M.bind at 1, M.helper at 1. rewrite Hif.
  unfold deleteNetworkInterfaceLink, unlinkSubnet. run_go.
  now rewrite Hget.
Qed.

(** A read handler that reports no diagnostics has parsed the resource
    id, resolved machine and interface, fetched the interface, and stored
    as ip_address the address of a link of the fetched interface whose ID
    is the parsed id; the fetch is its one call. *)
Lemma resourceNetworkInterfaceLinkRead_success
    (d d' : ResourceData.t) (w w' : World) (t : list Call) :
  resourceNetworkInterfaceLinkRead World client lookups d w
  = (Done ([], d'), w', t) ->
  exists linkID systemID w1 networkInterface w2 fetched link,
    strconv.Atoi (ResourceData.Id d) = Ok linkID
    /\ getMachineOrDeviceSystemID lookups d w = (Ok systemID, w1)
    /\ getNetworkInterface lookups systemID
         (ResourceData.network_interface d) w1
       = (Ok networkInterface, w2)
    /\ NetworkInterface_Get client systemID
         (NetworkInterface.ID networkInterface) w2 = (Ok fetched, w')
    /\ In link (NetworkInterface.Links fetched)
    /\ NetworkInterfaceLink.ID link = linkID
    /\ d' = ResourceData.Set_ip_address d
              (NetworkInterfaceLink.IPAddress link)
    /\ t = [NetworkInterfaceGet systemID
              (NetworkInterface.ID networkInterface)].
Proof.
  unfold resourceNetworkInterfaceLinkRead.
  destruct (strconv.Atoi (ResourceData.Id d)) as [linkID|err] eqn:Hid;
    [|discriminate].
  unfold M.bind at 1, M.helper at 1.
  destruct (getMachineOrDeviceSystemID lookups d w)
    as [[systemID|err] w1] eqn:Hsys; [|discriminate].
  unfold M.bind at 1, M.helper at 1.
  destruct (getNetworkInterface lookups systemID
              (ResourceData.network_interface d) w1)
    as [[networkInterface|err] w2] eqn:Hif; [|discriminate].
  unfold getNetworkInterfaceLink. run_go.
  destruct (NetworkInterface_Get client systemID
              (NetworkInterface.ID networkInterface) w2)
    as [[fetched|err] w3] eqn:Hget; [|discriminate].
  destruct (find _ _) as [link|] eqn:Hfind; [|discriminate].
  intros H. injection H as <- <- <-.
  apply find_some in Hfind as [Hin Hlink]. apply Z.eqb_eq in Hlink.
  exists linkID, systemID, w1, networkInterface, w2, fetched, link.
  repeat split; assumption || reflexivity.
Qed.

(** X15. Read and Update return, and change nothing of the resource data
    but ip_address, and that only when they report no diagnostics: then
    the resource id parsed, machine and interface resolved, the interface
    was fetched (by Read itself; by the read that ends Update, run from
    the state the clear-all call, and the set call when the flag is set,
    left), and ip_address is the address of a link of that fetched
    interface whose ID is the parsed id.  When they report diagnostics the
    resource data are unchanged.  Delete returns and changes nothing. *)
Theorem handlers_touch_ip_address_only (d : ResourceData.t) (w : World) :
  (exists diags d' w' t,
      resourceNetworkInterfaceLinkRead World client lookups d w
      = (Done (diags, d'), w', t)
      /\ ((diags = []
           /\ exists linkID systemID w1 networkInterface w2 fetched link,
                strconv.Atoi (ResourceData.Id d) = Ok linkID
                /\ getMachineOrDeviceSystemID lookups d w
                   = (Ok systemID, w1)
                /\ getNetworkInterface lookups systemID
                     (ResourceData.network_interface d) w1
                   = (Ok networkInterface, w2)
                /\ NetworkInterface_Get client systemID
                     (NetworkInterface.ID networkInterface) w2
                   = (Ok fetched, w')
                /\ In link (NetworkInterface.Links fetched)
                /\ NetworkInterfaceLink.ID link = linkID
                /\ d' = ResourceData.Set_ip_address d
                          (NetworkInterfaceLink.IPAddress link))
          \/ (diags <> [] /\ d' = d)))
  /\ (exists diags d' w' t,
         resourceNetworkInterfaceLinkUpdate World client lookups d w
         = (Done (diags, d'), w', t)
         /\ ((diags = []
              /\ exists linkID systemID w1 networkInterface w2 cleared w3 w4
                        systemID' w5 networkInterface' w6 fetched link,
                   strconv.Atoi (ResourceData.Id d) = Ok linkID
                   /\ getMachineOrDeviceSystemID lookups d w
                      = (Ok systemID, w1)
                   /\ getNetworkInterface lookups systemID
                        (ResourceData.network_interface d) w1
                      = (Ok networkInterface, w2)
                   /\ Machine_ClearDefaultGateways client systemID w2
                      = (Ok cleared, w3)
                   /\ (if ResourceData.default_gateway d
                       then exists set,
                              NetworkInterface_SetDefaultGateway client
                                systemID
                                (NetworkInterface.ID networkInterface)
                                linkID w3
                              = (Ok set, w4)
                       else w4 = w3)
                   /\ getMachineOrDeviceSystemID lookups d w4
                      = (Ok systemID', w5)
                   /\ getNetworkInterface lookups systemID'
                        (ResourceData.network_interface d) w5
                      = (Ok networkInterface', w6)
                   /\ NetworkInterface_Get client systemID'
                        (NetworkInterface.ID networkInterface') w6
                      = (Ok fetched, w')
                   /\ In link (NetworkInterface.Links fetched)
                   /\ NetworkInterfaceLink.ID link = linkID
                   /\ d' = ResourceData.Set_ip_address d
                             (NetworkInterfaceLink.IPAddress link))
             \/ (diags <> [] /\ d' = d)))
  /\ (exists diags w' t,
         resourceNetworkInterfaceLinkDelete World client lookups d w
         = (Done (diags, d), w', t)).
Proof.
  assert (Hread : forall w0, exists diags d' w' t,
             resourceNetworkInterfaceLinkRead World client lookups d w0
             = (Done (diags, d'), w', t)
             /\ ((diags = []
                  /\ exists linkID systemID w1 networkInterface w2 fetched
                            link,
                       strconv.Atoi (ResourceData.Id d) = Ok linkID
                       /\ getMachineOrDeviceSystemID lookups d w0
                          = (Ok systemID, w1)
                       /\ getNetworkInterface lookups systemID
                            (ResourceData.network_interface d) w1
                          = (Ok networkInterface, w2)
                       /\ NetworkInterface_Get client systemID
                            (NetworkInterface.ID networkInterface) w2
                          = (Ok fetched, w')
                       /\ In link (NetworkInterface.Links fetched)
                       /\ NetworkInterfaceLink.ID link = linkID
                       /\ d' = ResourceData.Set_ip_address d
                                 (NetworkInterfaceLink.IPAddress link))
                 \/ (diags <> [] /\ d' = d))).
  { intros w0.
    destruct (resourceNetworkInterfaceLinkRead_outcome d w0)
      as (diags & d' & w' & t & Hrun & _ & [[Hd _]|Hfail]).
    - exists diags, d', w', t. split; [exact Hrun|]. left.
      split; [exact Hd|]. subst diags.
      destruct (resourceNetworkInterfaceLinkRead_success _ _ _ _ _ Hrun)
        as (linkID & systemID & w1 & networkInterface & w2 & fetched
            & link & Hid & Hsys & Hif & Hget & Hin & Hlink & Hd' & _).
      exists linkID, systemID, w1, networkInterface, w2, fetched, link.
      repeat split; assumption.
    - exists diags, d', w', t. split; [exact Hrun|]. now right. }
  split; [exact (Hread w)|split].
  - unfold resourceNetworkInterfaceLinkUpdate.
    destruct (strconv.Atoi (ResourceData.Id d)) as [linkID|err] eqn:Hid.
    2:{ unfold M.ret. do 4 eexists. split; [reflexivity|].
        right. split; [discriminate | reflexivity]. }
    unfold M.bind at 1, M.helper at 1.
    destruct (getMachineOrDeviceSystemID lookups d w)
      as [[systemID|err] w1] eqn:Hsys.
    2:{ unfold M.ret. do 4 eexists. split; [reflexivity|].
        right. split; [discriminate | reflexivity]. }
    unfold M.bind at 1, M.helper at 1.
    destruct (getNetworkInterface lookups systemID
                (ResourceData.network_interface d) w1)
      as [[networkInterface|err] w2] eqn:Hif.
    2:{ unfold M.ret. do 4 eexists. split; [reflexivity|].
        right. split; [discriminate | reflexivity]. }
    unfold M.bind at 1, M.invoke at 1.
    destruct (Machine_ClearDefaultGateways client systemID w2)
      as [[cleared|err] w3] eqn:Hclear.
    2:{ unfold M.ret. do 4 eexists. split; [reflexivity|].
        right. split; [discriminate | reflexivity]. }
    destruct (ResourceData.default_gateway d) eqn:Hflag.
    + unfold M.bind at 1 2, M.invoke at 1, M.ret at 1.
      destruct (NetworkInterface_SetDefaultGateway client systemID
                  (NetworkInterface.ID networkInterface) linkID w3)
        as [[ni|err] w4] eqn:Hset; cbn [errOf].
      * destruct (Hread w4) as (diags & d' & w' & t & -> & Hcases).
        do 4 eexists. split; [reflexivity|].
        destruct Hcases
          as [[Hd (linkID' & systemID' & w5 & networkInterface' & w6
                   & fetched & link & Hid' & Hsys' & Hif' & Hget & Hin
                   & Hlink & Hd')]|Hfail];
          [left|now right].
        split; [exact Hd|].
        assert (linkID' = linkID) by congruence. subst linkID'.
        exists linkID, systemID, w1, networkInterface, w2, cleared, w3, w4,
          systemID', w5, networkInterface', w6, fetched, link.
        repeat split; try assumption. now exists ni.
      * unfold M.ret. do 4 eexists. split; [reflexivity|].
        right. split; [discriminate | reflexivity].
    + unfold M.bind at 1, M.ret at 1.
      destruct (Hread w3) as (diags & d' & w' & t & -> & Hcases).
      do 4 eexists. split; [reflexivity|].
      destruct Hcases
        as [[Hd (linkID' & systemID' & w5 & networkInterface' & w6
                 & fetched & link & Hid' & Hsys' & Hif' & Hget & Hin
                 & Hlink & Hd')]|Hfail];
        [left|now right].
      split; [exact Hd|].
      assert (linkID' = linkID) by congruence. subst linkID'.
      exists linkID, systemID, w1, networkInterface, w2, cleared, w3, w3,
        systemID', w5, networkInterface', w6, fetched, link.
      repeat split; assumption || reflexivity.
  - unfold resourceNetworkInterfaceLinkDelete.
    destruct (strconv.Atoi (ResourceData.Id d)) as [linkID|err].
    2:{ unfold M.ret. do 3 eexists. reflexivity. }
    unfold M.bind at 1, M.helper at 1.
    destruct (getMachineOrDeviceSystemID lookups d w)
      as [[systemID|err] w1].
    2:{ unfold M.ret. do 3 eexists. reflexivity. }
    unfold M.bind at 1, M.helper at 1.
    destruct (getNetworkInterface lookups systemID
                (ResourceData.network_interface d) w1)
      as [[networkInterface|err] w2].
    2:{ unfold M.ret. do 3 eexists. reflexivity. }
    unfold M.bind at 1, deleteNetworkInterfaceLink.
    destruct (unlinkSubnet_shape World client systemID
                (NetworkInterface.ID networkInterface) linkID w2)
      as (e & w3 & t & -> & _).
    destruct e; unfold M.ret; do 3 eexists; reflexivity.
Qed.


End HandlerMore.

(* ===================================================================== *)
(** ** Create, from the link to the read-back *)
(* ===================================================================== *)

Section CreateHandler.
Context {NC : node.Constants}.
Variable World : Type.
Variable client : Client World.
Variable lookups : Lookups World.

(** X17. The whole of a successful Create: once machine, interface and
    subnet are resolved and [createNetworkInterfaceLink] has returned a
    link, the resource id becomes the decimal text of the link's ID; the
    read-back parses it into the same ID, resolves machine and interface
    again, fetches the interface, and stores as ip_address the address of
    the first fetched link with that ID.  The log is that of
    [createNetworkInterfaceLink] followed by the one interface fetch. *)
Theorem resourceNetworkInterfaceLinkCreate_read_back
    (d : ResourceData.t) (w w1 w2 w3 w4 w5 w6 w7 : World)
    (systemID systemID' : string)
    (networkInterface networkInterface' fetched : NetworkInterface.t)
    (subnet : Subnet.t) (link found : NetworkInterfaceLink.t)
    (pre post : list NetworkInterfaceLink.t) (t : list Call) :
  let d1 :=
    ResourceData.SetId d (fmt_int (NetworkInterfaceLink.ID link)) in
  getMachineOrDeviceSystemID lookups d w = (Ok systemID, w1) ->
  getNetworkInterface lookups systemID (ResourceData.network_interface d) w1
  = (Ok networkInterface, w2) ->
  getSubnet lookups (ResourceData.subnet d) w2 = (Ok subnet, w3) ->
  createNetworkInterfaceLink World client systemID networkInterface
    (getNetworkInterfaceLinkParams d (Subnet.ID subnet)) w3
  = (Done (Ok link), w4, t) ->
  - 2 ^ 63 <= NetworkInterfaceLink.ID link <= 2 ^ 63 - 1 ->
  getMachineOrDeviceSystemID lookups d1 w4 = (Ok systemID', w5) ->
  getNetworkInterface lookups systemID' (ResourceData.network_interface d) w5
  = (Ok networkInterface', w6) ->
  NetworkInterface_Get client systemID'
    (NetworkInterface.ID networkInterface') w6 = (Ok fetched, w7) ->
  NetworkInterface.Links fetched = pre ++ found :: post ->
  NetworkInterfaceLink.ID found = NetworkInterfaceLink.ID link ->
  (forall other,
      In other pre ->
      NetworkInterfaceLink.ID other <> NetworkInterfaceLink.ID link) ->
  resourceNetworkInterfaceLinkCreate World client lookups d w
  = (Done ([], ResourceData.Set_ip_address d1
                 (NetworkInterfaceLink.IPAddress found)),
     w7,
     t ++ [NetworkInterfaceGet systemID'
             (NetworkInterface.ID networkInterface')]).
Proof.
  intros d1 Hsys Hif Hsub Hcreate Hrange Hsys' Hif' Hget Hlinks Hid Hpre.
  unfold resourceNetworkInterfaceLinkCreate.
  unfold M.bind at 1, M.helper at 1. rewrite Hsys.
  unfold M.bind at 1, M.helper at 1. rewrite Hif.
  unfold M.bind at 1, M.helper at 1. rewrite Hsub.
  unfold M.bind at 1. rewrite Hcreate. fold d1.
  unfold resourceNetworkInterfaceLinkRead.
  replace (strconv.Atoi (ResourceData.Id d1))
    with (@Ok Z (NetworkInterfaceLink.ID link))
    by (symmetry; apply Atoi_fmt_int_range; exact Hrange).
  unfold M.bind at 1, M.helper at 1. rewrite Hsys'.
  unfold M.bind at 1, M.helper at 1.
  change (ResourceData.network_interface d1)
    with (ResourceData.network_interface d).
  rewrite Hif'.
  unfold getNetworkInterfaceLink. run_go. rewrite Hget, Hlinks.
  rewrite find_first;
    [ reflexivity
    | now apply Z.eqb_eq
    | intros other Hin; apply Z.eqb_neq; now apply Hpre ].
Qed.

End CreateHandler.

(* ===================================================================== *)
(** ** Which calls Create and Delete can issue *)
(* ===================================================================== *)

Section CallKinds.
Context {NC : node.Constants}.
Variable World : Type.
Variable client : Client World.
Variable lookups : Lookups World.

(** A teardown issues no default-gateway call. *)
Lemma unlinkSubnet_no_gateway_call
    (machineSystemID : string) (networkInterfaceID linkID : Z) (w : World) :
  exists e w' t,
    unlinkSubnet World client machineSystemID networkInterfaceID linkID w
    = (Done e, w', t)
    /\ existsb isSetDefaultGateway t = false
    /\ existsb isClearDefaultGateways t = false
    /\ existsb isLinkSubnet t = false.
Proof.
  unfold unlinkSubnet. run_go. split_call.
  - destruct (classify (Machine.Status a)); cbn; repeat split_call;
      eauto 10.
  - eauto 10.
Qed.

(** Nor do the teardowns of Create, which never panic. *)
Lemma clearExistingLinks_no_gateway_call
    (machineSystemID : string) (networkInterfaceID : Z)
    (links : list NetworkInterfaceLink.t) (w : World) :
  exists e w' t,
    clearExistingLinks World client machineSystemID networkInterfaceID
      links w
    = (Done e, w', t)
    /\ existsb isSetDefaultGateway t = false
    /\ existsb isClearDefaultGateways t = false
    /\ existsb isLinkSubnet t = false.
Proof.
  revert w. induction links as [|link rest IH]; intros w.
  - do 3 eexists. repeat split.
  - cbn [clearExistingLinks]. unfold M.bind at 1.
    destruct (unlinkSubnet_no_gateway_call machineSystemID
                networkInterfaceID (NetworkInterfaceLink.ID link) w)
      as (e & w1 & t1 & -> & Hs1 & Hc1 & Hl1).
    destruct e as [e|].
    + unfold M.ret. do 3 eexists. split; [reflexivity|].
      rewrite app_nil_r. auto.
    + destruct (IH w1) as (e2 & w2 & t2 & -> & Hs2 & Hc2 & Hl2).
      do 3 eexists. split; [reflexivity|].
      rewrite !existsb_app, Hs1, Hc1, Hl1, Hs2, Hc2, Hl2. auto.
Qed.

(** The log of [createNetworkInterfaceLink]: teardown calls, then at most
    the one LinkSubnet call. *)
Lemma createNetworkInterfaceLink_log
    (machineSystemID : string) (networkInterface : NetworkInterface.t)
    (params : NetworkInterfaceLinkParams.t) (w : World) :
  exists pre,
    (snd (createNetworkInterfaceLink World client machineSystemID
            networkInterface params w) = pre
     \/ snd (createNetworkInterfaceLink World client machineSystemID
               networkInterface params w)
        = pre ++ [NetworkInterfaceLinkSubnet machineSystemID
                    (NetworkInterface.ID networkInterface) params])
    /\ existsb isSetDefaultGateway pre = false
    /\ existsb isClearDefaultGateways pre = false
    /\ existsb isLinkSubnet pre = false.
Proof.
  destruct (clearExistingLinks_no_gateway_call machineSystemID
              (NetworkInterface.ID networkInterface)
              (NetworkInterface.Links networkInterface) w)
    as (e & w1 & t1 & Hrun & Hs & Hc & Hl).
  exists t1. split; [|auto].
  destruct e as [e|]; [left|right];
    unfold createNetworkInterfaceLink; unfold M.bind at 1;
    rewrite Hrun; run_go.
  - cbn. apply app_nil_r.
  - split_call; [|reflexivity].
    now destruct (NetworkInterface.Links a).
Qed.

Lemma fetches_only (t : list Call) :
  existsb isMutating t = false -> existsb isLinkSubnet t = false.
Proof.
  induction t as [|c t IH]; cbn; [reflexivity|].
  intros H. apply orb_false_iff in H as [Hc Ht].
  rewrite (IH Ht). destruct c; cbn in *; congruence.
Qed.

(** The log of the create handler: that of [createNetworkInterfaceLink]
    for the resolved machine, interface and subnet, then fetches. *)
Lemma resourceNetworkInterfaceLinkCreate_log
    (d : ResourceData.t) (w w1 w2 w3 : World) (systemID : string)
    (networkInterface : NetworkInterface.t) (subnet : Subnet.t) :
  getMachineOrDeviceSystemID lookups d w = (Ok systemID, w1) ->
  getNetworkInterface lookups systemID (ResourceData.network_interface d) w1
  = (Ok networkInterface, w2) ->
  getSubnet lookups (ResourceData.subnet d) w2 = (Ok subnet, w3) ->
  exists fetches,
    snd (resourceNetworkInterfaceLinkCreate World client lookups d w)
    = snd (createNetworkInterfaceLink World client systemID
             networkInterface
             (getNetworkInterfaceLinkParams d (Subnet.ID subnet)) w3)
      ++ fetches
    /\ existsb isMutating fetches = false.
Proof.
  intros Hsys Hif Hsub. unfold resourceNetworkInterfaceLinkCreate.
  unfold M.bind at 1, M.helper at 1. rewrite Hsys.
  unfold M.bind at 1, M.helper at 1. rewrite Hif.
  unfold M.bind at 1, M.helper at 1. rewrite Hsub.
  unfold M.bind at 1.
  destruct (createNetworkInterfaceLink World client systemID
              networkInterface
              (getNetworkInterfaceLinkParams d (Subnet.ID subnet)) w3)
    as [[[[link|e]|msg] w4] t1].
  - destruct (resourceNetworkInterfaceLinkRead_outcome World client lookups
                (ResourceData.SetId d
                   (fmt_int (NetworkInterfaceLink.ID link))) w4)
      as (diags1 & d1 & w5 & t2 & -> & Hfetch & _).
    exists t2. split; [reflexivity | exact Hfetch].
  - exists []. unfold M.ret. split; reflexivity.
  - exists []. cbn. split; [now rewrite app_nil_r | reflexivity].
Qed.

(** X19. Create and Delete never issue a default-gateway call (neither
    clear-all nor set), whatever the default_gateway attribute of the
    resource is: of the handlers only Update does. *)
Theorem create_delete_issue_no_gateway_call
    (d : ResourceData.t) (w : World) :
  (existsb isClearDefaultGateways
     (snd (resourceNetworkInterfaceLinkCreate World client lookups d w))
   = false
   /\ existsb isSetDefaultGateway
        (snd (resourceNetworkInterfaceLinkCreate World client lookups d w))
      = false)
  /\ (existsb isClearDefaultGateways
        (snd (resourceNetworkInterfaceLinkDelete World client lookups d w))
      = false
      /\ existsb isSetDefaultGateway
           (snd (resourceNetworkInterfaceLinkDelete World client lookups d w))
         = false).
Proof.
  split.
  - destruct (getMachineOrDeviceSystemID lookups d w)
      as [[systemID|e] w1] eqn:Hsys.
    2:{ unfold resourceNetworkInterfaceLinkCreate. run_go.
        rewrite Hsys. split; reflexivity. }
    destruct (getNetworkInterface lookups systemID
                (ResourceData.network_interface d) w1)
      as [[networkInterface|e] w2] eqn:Hif.
    2:{ unfold resourceNetworkInterfaceLinkCreate. run_go.
        rewrite Hsys, Hif. split; reflexivity. }
    destruct (getSubnet lookups (ResourceData.subnet d) w2)
      as [[subnet|e] w3] eqn:Hsub.
    2:{ unfold resourceNetworkInterfaceLinkCreate. run_go.
        rewrite Hsys, Hif, Hsub. split; reflexivity. }
    destruct (resourceNetworkInterfaceLinkCreate_log d w w1 w2 w3
                systemID networkInterface subnet Hsys Hif Hsub)
      as (fetches & -> & Hfetch).
    destruct (read_only_calls fetches Hfetch) as [Hfc Hfs].
    destruct (createNetworkInterfaceLink_log systemID networkInterface
                (getNetworkInterfaceLinkParams d (Subnet.ID subnet)) w3)
      as (pre & [-> | ->] & Hs & Hc & _);
      rewrite !existsb_app, ?Hs, ?Hc, ?Hfc, ?Hfs; split; reflexivity.
  - assert (H : exists t,
               snd (resourceNetworkInterfaceLinkDelete
                      World client lookups d w) = t
               /\ existsb isClearDefaultGateways t = false
               /\ existsb isSetDefaultGateway t = false).
    { unfold resourceNetworkInterfaceLinkDelete.
      destruct (strconv.Atoi (ResourceData.Id d)) as [linkID|err];
        [|exists []; repeat split].
      unfold M.bind at 1, M.helper at 1.
      destruct (getMachineOrDeviceSystemID lookups d w)
        as [[systemID|err] w1]; [|exists []; repeat split].
      unfold M.bind at 1, M.helper at 1.
      destruct (getNetworkInterface lookups systemID
                  (ResourceData.network_interface d) w1)
        as [[networkInterface|err] w2]; [|exists []; repeat split].
      unfold M.bind at 1, deleteNetworkInterfaceLink.
      destruct (unlinkSubnet_no_gateway_call systemID
                  (NetworkInterface.ID networkInterface) linkID w2)
        as (e & w3 & t & -> & Hs & Hc & _).
      exists t. destruct e; unfold M.ret; cbn; rewrite app_nil_r; auto. }
    destruct H as (t & -> & Hc & Hs). split; assumption.
Qed.

(** X20. Every LinkSubnet call of Create is the one for the resolved
    machine and interface, with the resolved subnet's ID and the mode,
    default_gateway and ip_address of the resource as parameters; and
    there is at most one, after which only fetches follow. *)
Theorem resourceNetworkInterfaceLinkCreate_link_parameters
    (d : ResourceData.t) (w w1 w2 w3 : World) (systemID : string)
    (networkInterface : NetworkInterface.t) (subnet : Subnet.t) :
  getMachineOrDeviceSystemID lookups d w = (Ok systemID, w1) ->
  getNetworkInterface lookups systemID (ResourceData.network_interface d) w1
  = (Ok networkInterface, w2) ->
  getSubnet lookups (ResourceData.subnet d) w2 = (Ok subnet, w3) ->
  let callLink :=
    NetworkInterfaceLinkSubnet systemID
      (NetworkInterface.ID networkInterface)
      (NetworkInterfaceLinkParams.mk
         (Subnet.ID subnet) (ResourceData.mode d)
         (ResourceData.default_gateway d) (ResourceData.ip_address d)) in
  exists before after,
    (snd (resourceNetworkInterfaceLinkCreate World client lookups d w)
     = before
     \/ snd (resourceNetworkInterfaceLinkCreate World client lookups d w)
        = before ++ callLink :: after)
    /\ existsb isLinkSubnet before = false
    /\ existsb isMutating after = false.
Proof.
  intros Hsys Hif Hsub callLink. subst callLink.
  destruct (resourceNetworkInterfaceLinkCreate_log d w w1 w2 w3
              systemID networkInterface subnet Hsys Hif Hsub)
    as (fetches & -> & Hfetch).
  destruct (createNetworkInterfaceLink_log systemID networkInterface
              (getNetworkInterfaceLinkParams d (Subnet.ID subnet)) w3)
    as (pre & [-> | ->] & _ & _ & Hl).
  - exists (pre ++ fetches), []. split; [now left|].
    rewrite existsb_app, Hl, (fetches_only _ Hfetch). split; reflexivity.
  - exists pre, fetches. split; [|split; assumption].
    right. now rewrite <- app_assoc.
Qed.

End CallKinds.

(* ===================================================================== *)
(** ** What Create records *)
(* ===================================================================== *)

Section CreateRecords.
Context {NC : node.Constants}.
Variable World : Type.
Variable client : Client World.
Variable lookups : Lookups World.

(** A link that [createNetworkInterfaceLink] returns: the teardowns of
    the links the interface had all succeeded, the server answered the
    LinkSubnet call that followed with an interface, and the link is the
    first link of that answer. *)
Lemma createNetworkInterfaceLink_Ok_served
    (machineSystemID : string) (networkInterface : NetworkInterface.t)
    (params : NetworkInterfaceLinkParams.t) (w w' : World)
    (link : NetworkInterfaceLink.t) (t : list Call) :
  createNetworkInterfaceLink World client machineSystemID
    networkInterface params w
  = (Done (Ok link), w', t) ->
  exists before w1 created rest,
    t = before ++ [NetworkInterfaceLinkSubnet machineSystemID
                     (NetworkInterface.ID networkInterface) params]
    /\ teardownsSucceed World client machineSystemID
         (NetworkInterface.ID networkInterface)
         (NetworkInterface.Links networkInterface) w w1 before
    /\ existsb isLinkSubnet before = false
    /\ NetworkInterface_LinkSubnet client machineSystemID
         (NetworkInterface.ID networkInterface) params w1
       = (Ok created, w')
    /\ NetworkInterface.Links created = link :: rest.
Proof.
  intros Hrun.
  destruct (teardowns_succeed_or_fail World client machineSystemID
              (NetworkInterface.ID networkInterface)
              (NetworkInterface.Links networkInterface) w)
    as [(w1 & before & Hok)
       |(p & l & post & w1 & t1 & e & w2 & t2 & Hlinks & Hpre & Hfail)].
  - destruct (teardownsSucceed_calls _ _ _ _ _ _ _ _ Hok) as [_ Hl].
    revert Hrun. unfold createNetworkInterfaceLink. unfold M.bind at 1.
    rewrite (clearExistingLinks_succeed _ _ _ _ _ _ _ _ Hok).
    run_go.
    destruct (NetworkInterface_LinkSubnet client machineSystemID
                (NetworkInterface.ID networkInterface) params w1)
      as [[created|e] w2] eqn:Hlink; [|discriminate].
    destruct (NetworkInterface.Links created) as [|first rest] eqn:Hfirst;
      [discriminate|].
    intros H. injection H as <- <- <-.
    exists before, w1, created, rest. repeat split; assumption.
  - revert Hrun. unfold createNetworkInterfaceLink. unfold M.bind at 1.
    rewrite Hlinks.
    rewrite (clearExistingLinks_fail _ _ _ _ _ _ post _ _ _ _ _ _
               Hpre Hfail).
    discriminate.
Qed.

(** X18. What a returning Create leaves in the resource data.  Either it
    reports diagnostics and the data are unchanged; or machine, interface
    and subnet resolved, the teardowns of the interface's links succeeded,
    the server answered the LinkSubnet call that followed (the only one of
    the log, followed by fetches only) with an interface, and the id is
    the decimal text of the ID of the first link of that answer.  In that
    case Create reports diagnostics and nothing else of the data changed,
    or it reports none and ip_address is the address of a link with that
    same ID in the interface fetched by the read-back. *)
Theorem resourceNetworkInterfaceLinkCreate_records_id
    (d d' : ResourceData.t) (w w' : World) (diags : Diagnostics)
    (t : list Call) :
  resourceNetworkInterfaceLinkCreate World client lookups d w
  = (Done (diags, d'), w', t) ->
  (diags <> [] /\ d' = d)
  \/ (exists systemID w1 networkInterface w2 subnet w3 w4 w5
             created link rest before after,
         getMachineOrDeviceSystemID lookups d w = (Ok systemID, w1)
         /\ getNetworkInterface lookups systemID
              (ResourceData.network_interface d) w1
            = (Ok networkInterface, w2)
         /\ getSubnet lookups (ResourceData.subnet d) w2 = (Ok subnet, w3)
         /\ teardownsSucceed World client systemID
              (NetworkInterface.ID networkInterface)
              (NetworkInterface.Links networkInterface) w3 w4 before
         /\ NetworkInterface_LinkSubnet client systemID
              (NetworkInterface.ID networkInterface)
              (getNetworkInterfaceLinkParams d (Subnet.ID subnet)) w4
            = (Ok created, w5)
         /\ NetworkInterface.Links created = link :: rest
         /\ t = before
                 ++ NetworkInterfaceLinkSubnet systemID
                      (NetworkInterface.ID networkInterface)
                      (getNetworkInterfaceLinkParams d (Subnet.ID subnet))
                 :: after
         /\ existsb isLinkSubnet before = false
         /\ existsb isMutating after = false
         /\ ((diags <> []
              /\ d' = ResourceData.SetId d
                        (fmt_int (NetworkInterfaceLink.ID link)))
             \/ (diags = []
                 /\ exists systemID' w6 networkInterface' w7 fetched found,
                      getMachineOrDeviceSystemID lookups
                        (ResourceData.SetId d
                           (fmt_int (NetworkInterfaceLink.ID link))) w5
                      = (Ok systemID', w6)
                      /\ getNetworkInterface lookups systemID'
                           (ResourceData.network_interface d) w6
                         = (Ok networkInterface', w7)
                      /\ NetworkInterface_Get client systemID'
                           (NetworkInterface.ID networkInterface') w7
                         = (Ok fetched, w')
                      /\ In found (NetworkInterface.Links fetched)
                      /\ NetworkInterfaceLink.ID found
                         = NetworkInterfaceLink.ID link
                      /\ d' = ResourceData.Set_ip_address
                                (ResourceData.SetId d
                                   (fmt_int (NetworkInterfaceLink.ID link)))
                                (NetworkInterfaceLink.IPAddress found)))).
Proof.
  unfold resourceNetworkInterfaceLinkCreate.
  unfold M.bind at 1, M.helper at 1.
  destruct (getMachineOrDeviceSystemID lookups d w)
    as [[systemID|e] w1] eqn:Hsys.
  2:{ unfold M.ret. intros H. injection H as <- <- _ _.
      left. split; [discriminate | reflexivity]. }
  unfold M.bind at 1, M.helper at 1.
  destruct (getNetworkInterface lookups systemID
              (ResourceData.network_interface d) w1)
    as [[networkInterface|e] w2] eqn:Hif.
  2:{ unfold M.ret. intros H. injection H as <- <- _ _.
      left. split; [discriminate | reflexivity]. }
  unfold M.bind at 1, M.helper at 1.
  destruct (getSubnet lookups (ResourceData.subnet d) w2)
    as [[subnet|e] w3] eqn:Hsub.
  2:{ unfold M.ret. intros H. injection H as <- <- _ _.
      left. split; [discriminate | reflexivity]. }
  unfold M.bind at 1.
  destruct (createNetworkInterfaceLink World client systemID
              networkInterface
              (getNetworkInterfaceLinkParams d (Subnet.ID subnet)) w3)
    as [[[[link|e]|msg] w5] t1] eqn:Hcreate; [| |discriminate].
  2:{ unfold M.ret. intros H. injection H as <- <- _ _.
      left. split; [discriminate | reflexivity]. }
  destruct (createNetworkInterfaceLink_Ok_served _ _ _ _ _ _ _ Hcreate)
    as (before & w4 & created & rest & -> & Hok & Hbefore & Hlink
        & Hfirst).
  destruct (resourceNetworkInterfaceLinkRead_outcome World client lookups
              (ResourceData.SetId d
                 (fmt_int (NetworkInterfaceLink.ID link))) w5)
    as (diags1 & d1 & w6 & after & Hread & Hafter & Hcases).
  rewrite Hread. intros H. injection H as <- <- <- <-.
  right.
  exists systemID, w1, networkInterface, w2, subnet, w3, w4, w5,
    created, link, rest, before, after.
  repeat (split;
          [reflexivity || assumption || (now rewrite <- app_assoc)|]).
  destruct Hcases as [[Hd _]|[Hd ->]].
  - right. split; [exact Hd|]. subst diags1.
    destruct (resourceNetworkInterfaceLinkRead_success World client lookups
                _ _ _ _ _ Hread)
      as (linkID & systemID' & w7 & networkInterface' & w8 & fetched
          & found & Hid & Hsys' & Hif' & Hget & Hin & Hfound & Hd1 & _).
    apply Atoi_fmt_int_inv in Hid. subst linkID.
    exists systemID', w7, networkInterface', w8, fetched, found.
    repeat split; assumption.
  - left. split; [exact Hd | reflexivity].
Qed.

End CreateRecords.

(* ===================================================================== *)
(** ** The further theorems on concrete servers *)
(* ===================================================================== *)

Lemma unlinkSubnet_success_means_unlinked_witness :
  exists pre w2 unlinked,
    [MachineGet "abc123";
     MachineRelease "abc123" MachineReleaseParams.zero;
     NetworkInterfaceUnlinkSubnet "abc123" 7 42]
    = pre ++ [NetworkInterfaceUnlinkSubnet "abc123" 7 42]
    /\ NetworkInterface_UnlinkSubnet (Fixture.client (Fixture.healthy 6))
         "abc123" 7 42 w2 = (Ok unlinked, 3%nat)
    /\ (forall s n l, ~ In (NetworkInterfaceUnlinkSubnet s n l) pre).
Proof.
  apply (unlinkSubnet_success_means_unlinked (NC := Fixture.maas) nat
           (Fixture.client (Fixture.healthy 6)) "abc123" 7 42
           0%nat 1%nat 3%nat (Machine.mk "abc123" 6));
    reflexivity.
Defined.

Lemma createNetworkInterfaceLink_no_links_witness :
  NetworkInterface.Links Fixture.eth0_unlinked = []
  /\ snd (createNetworkInterfaceLink (NC := Fixture.maas) nat
            (Fixture.client (Fixture.healthy 9)) "abc123"
            Fixture.eth0_unlinked
            (NetworkInterfaceLinkParams.mk 3 "DHCP" false "") 0%nat)
     = [NetworkInterfaceLinkSubnet "abc123" 7
          (NetworkInterfaceLinkParams.mk 3 "DHCP" false "")].
Proof.
  split; [reflexivity|].
  apply (createNetworkInterfaceLink_no_links (NC := Fixture.maas) nat
           (Fixture.client (Fixture.healthy 9)) "abc123"
           Fixture.eth0_unlinked).
  reflexivity.
Defined.

Lemma createNetworkInterfaceLink_unknown_status_witness :
  createNetworkInterfaceLink (NC := Fixture.maas) nat
    (Fixture.client (Fixture.healthy 23)) "abc123" Fixture.eth0
    (NetworkInterfaceLinkParams.mk 3 "AUTO" false "") 0%nat
  = (Done (Err (Errorf "cannot unlink subnet from machine in status 23")),
     1%nat, [MachineGet "abc123"]).
Proof.
  apply (createNetworkInterfaceLink_unknown_status (NC := Fixture.maas) nat
           (Fixture.client (Fixture.healthy 23)) "abc123" Fixture.eth0
           (NetworkInterfaceLinkParams.mk 3 "AUTO" false "")
           0%nat 1%nat (Machine.mk "abc123" 23)
           Fixture.link42 [Fixture.link43]);
    [reflexivity | reflexivity | cbn; intuition discriminate].
Defined.

Lemma createNetworkInterfaceLink_machine_gone_witness :
  snd (createNetworkInterfaceLink (NC := Fixture.maas) nat
         (Fixture.client
            (Fixture.withGet (Fixture.healthy 4) (Err Fixture.gone)))
         "abc123" Fixture.eth0
         (NetworkInterfaceLinkParams.mk 3 "AUTO" false "") 0%nat)
  = [MachineGet "abc123"; MachineGet "abc123";
     NetworkInterfaceLinkSubnet "abc123" 7
       (NetworkInterfaceLinkParams.mk 3 "AUTO" false "")].
Proof.
  apply (createNetworkInterfaceLink_machine_gone (NC := Fixture.maas) nat
           (Fixture.client
              (Fixture.withGet (Fixture.healthy 4) (Err Fixture.gone)))
           "abc123" Fixture.eth0
           (NetworkInterfaceLinkParams.mk 3 "AUTO" false "")).
  intros w. exists Fixture.gone, (S w). reflexivity.
Defined.

Lemma createNetworkInterfaceLink_returns_served_link_witness :
  exists pre w1 created rest,
    [MachineGet "abc123"; NetworkInterfaceUnlinkSubnet "abc123" 7 42;
     MachineGet "abc123"; NetworkInterfaceUnlinkSubnet "abc123" 7 43;
     NetworkInterfaceLinkSubnet "abc123" 7
       (NetworkInterfaceLinkParams.mk 3 "AUTO" false "")]
    = pre ++ [NetworkInterfaceLinkSubnet "abc123"
                (NetworkInterface.ID Fixture.eth0)
                (NetworkInterfaceLinkParams.mk 3 "AUTO" false "")]
    /\ NetworkInterface_LinkSubnet (Fixture.client (Fixture.healthy 4))
         "abc123" (NetworkInterface.ID Fixture.eth0)
         (NetworkInterfaceLinkParams.mk 3 "AUTO" false "") w1
       = (Ok created, 5%nat)
    /\ NetworkInterface.Links created = Fixture.link42 :: rest
    /\ List.length (filter isMachineGet pre)
       = List.length (NetworkInterface.Links Fixture.eth0)
    /\ existsb isLinkSubnet pre = false.
Proof.
  apply (createNetworkInterfaceLink_returns_served_link
           (NC := Fixture.maas) nat
           (Fixture.client (Fixture.healthy 4)) "abc123" Fixture.eth0
           (NetworkInterfaceLinkParams.mk 3 "AUTO" false "")
           0%nat 5%nat Fixture.link42).
  reflexivity.
Defined.

Lemma getNetworkInterfaceLink_fetch_error_witness :
  getNetworkInterfaceLink nat
    (Fixture.client
       (Fixture.withInterfaceGet (Fixture.healthy 4)
          (Err Fixture.unreachable)))
    "abc123" 7 42 0%nat
  = (Done (Err Fixture.unreachable), 1%nat,
     [NetworkInterfaceGet "abc123" 7]).
Proof.
  apply (getNetworkInterfaceLink_fetch_error nat
           (Fixture.client
              (Fixture.withInterfaceGet (Fixture.healthy 4)
                 (Err Fixture.unreachable)))
           "abc123" 7 42 0%nat 1%nat Fixture.unreachable).
  reflexivity.
Defined.

Lemma getNetworkInterfaceLink_sound_complete_witness :
  NetworkInterfaceLink.ID Fixture.link43 = 43
  /\ exists link,
       fst (fst (getNetworkInterfaceLink nat
                   (Fixture.client (Fixture.healthy 4))
                   "abc123" 7 43 0%nat))
       = Done (Ok link).
Proof.
  split.
  - apply (proj1 (getNetworkInterfaceLink_sound_complete nat
                    (Fixture.client (Fixture.healthy 4))
                    "abc123" 7 43 0%nat)
             Fixture.link43 1%nat [NetworkInterfaceGet "abc123" 7]).
    reflexivity.
  - apply (proj2 (getNetworkInterfaceLink_sound_complete nat
                    (Fixture.client (Fixture.healthy 4))
                    "abc123" 7 43 0%nat)
             Fixture.eth0 1%nat Fixture.link43);
      [reflexivity | cbn; tauto | reflexivity].
Defined.

Lemma Atoi_fmt_int_witness :
  strconv.Atoi (fmt_int (- 42)) = Ok (- 42)
  /\ strconv.Atoi (fmt_int (2 ^ 63))
     = Err (NumError "Atoi" "9223372036854775808" "value out of range").
Proof.
  split.
  - apply (proj1 (Atoi_fmt_int (- 42))). lia.
  - apply (proj2 (Atoi_fmt_int (2 ^ 63))). right. lia.
Defined.

Lemma handlers_reject_malformed_id_witness :
  strconv.Atoi (ResourceData.Id (Fixture.resource "" false))
  = Err (NumError "Atoi" "" "invalid syntax")
  /\ resourceNetworkInterfaceLinkDelete (NC := Fixture.maas) nat
       (Fixture.client (Fixture.healthy 4)) Fixture.lookups
       (Fixture.resource "" false) 0%nat
     = (Done (FromErr (NumError "Atoi" "" "invalid syntax"),
              Fixture.resource "" false),
        0%nat, []).
Proof.
  split; [reflexivity|].
  apply (handlers_reject_malformed_id (NC := Fixture.maas) nat
           (Fixture.client (Fixture.healthy 4)) Fixture.lookups
           (Fixture.resource "" false) 0%nat
           (NumError "Atoi" "" "invalid syntax")).
  reflexivity.
Defined.

Lemma resourceNetworkInterfaceLinkCreate_resolves_first_witness :
  getSubnet Fixture.noSubnet
    (ResourceData.subnet (Fixture.resource "" false)) 0%nat
  = (Err Fixture.notResolved, 0%nat)
  /\ resourceNetworkInterfaceLinkCreate (NC := Fixture.maas) nat
       (Fixture.client (Fixture.healthy 4)) Fixture.noSubnet
       (Fixture.resource "" false) 0%nat
     = (Done (FromErr Fixture.notResolved, Fixture.resource "" false),
        0%nat, []).
Proof.
  split; [reflexivity|].
  apply (proj2 (proj2
                  (resourceNetworkInterfaceLinkCreate_resolves_first
                     (NC := Fixture.maas) nat
                     (Fixture.client (Fixture.healthy 4)) Fixture.noSubnet
                     (Fixture.resource "" false) 0%nat))
           "abc123" 0%nat Fixture.eth0 0%nat Fixture.notResolved 0%nat);
    reflexivity.
Defined.

Lemma handlers_unresolved_issue_no_call_witness :
  strconv.Atoi (ResourceData.Id (Fixture.resource "42" true)) = Ok 42
  /\ resourceNetworkInterfaceLinkUpdate nat
       (Fixture.client (Fixture.healthy 4)) Fixture.noMachine
       (Fixture.resource "42" true) 0%nat
     = (Done (FromErr Fixture.notResolved, Fixture.resource "42" true),
        0%nat, [])
  /\ resourceNetworkInterfaceLinkDelete (NC := Fixture.maas) nat
       (Fixture.client (Fixture.healthy 4)) Fixture.noInterface
       (Fixture.resource "42" true) 0%nat
     = (Done (FromErr Fixture.notResolved, Fixture.resource "42" true),
        0%nat, []).
Proof.
  split; [reflexivity|]. split.
  - apply (proj1 (handlers_unresolved_issue_no_call (NC := Fixture.maas)
                    nat (Fixture.client (Fixture.healthy 4))
                    Fixture.noMachine (Fixture.resource "42" true)
                    0%nat 42 eq_refl)
             Fixture.notResolved 0%nat).
    reflexivity.
  - apply (proj2 (handlers_unresolved_issue_no_call (NC := Fixture.maas)
                    nat (Fixture.client (Fixture.healthy 4))
                    Fixture.noInterface (Fixture.resource "42" true)
                    0%nat 42 eq_refl)
             "abc123" 0%nat Fixture.notResolved 0%nat);
      reflexivity.
Defined.

Lemma resourceNetworkInterfaceLinkDelete_delegates_witness :
  resourceNetworkInterfaceLinkDelete (NC := Fixture.maas) nat
    (Fixture.client (Fixture.healthy 23)) Fixture.lookups
    (Fixture.resource "42" false) 0%nat
  = (Done
       (FromErr (Errorf "cannot unlink subnet from machine in status 23"),
        Fixture.resource "42" false),
     1%nat, [MachineGet "abc123"]).
Proof.
  apply (resourceNetworkInterfaceLinkDelete_delegates (NC := Fixture.maas)
           nat (Fixture.client (Fixture.healthy 23)) Fixture.lookups
           (Fixture.resource "42" false) 0%nat 0%nat 0%nat 1%nat 42
           "abc123" Fixture.eth0
           (Some (Errorf "cannot unlink subnet from machine in status 23"))
           [MachineGet "abc123"]);
    reflexivity.
Defined.

Lemma resourceNetworkInterfaceLinkDelete_machine_gone_witness :
  Machine_Get
    (Fixture.client (Fixture.withGet (Fixture.healthy 4) (Err Fixture.gone)))
    "abc123" 0%nat
  = (Err Fixture.gone, 1%nat)
  /\ resourceNetworkInterfaceLinkDelete (NC := Fixture.maas) nat
       (Fixture.client
          (Fixture.withGet (Fixture.healthy 4) (Err Fixture.gone)))
       Fixture.lookups (Fixture.resource "42" false) 0%nat
     = (Done ([], Fixture.resource "42" false), 1%nat,
        [MachineGet "abc123"]).
Proof.
  split; [reflexivity|].
  apply (resourceNetworkInterfaceLinkDelete_machine_gone
           (NC := Fixture.maas) nat
           (Fixture.client
              (Fixture.withGet (Fixture.healthy 4) (Err Fixture.gone)))
           Fixture.lookups (Fixture.resource "42" false)
           0%nat 0%nat 0%nat 1%nat 42 "abc123" Fixture.eth0 Fixture.gone);
    reflexivity.
Defined.


Lemma resourceNetworkInterfaceLinkCreate_read_back_witness :
  resourceNetworkInterfaceLinkCreate (NC := Fixture.maas) nat
    (Fixture.client (Fixture.healthy 4)) Fixture.lookups
    (Fixture.resource "" false) 0%nat
  = (Done ([], ResourceData.mk "42" false "" "10.0.0.5" "abc123" "AUTO"
                 "eth0" "10.0.0.0/24"),
     6%nat,
     [MachineGet "abc123"; NetworkInterfaceUnlinkSubnet "abc123" 7 42;
      MachineGet "abc123"; NetworkInterfaceUnlinkSubnet "abc123" 7 43;
      NetworkInterfaceLinkSubnet "abc123" 7
        (NetworkInterfaceLinkParams.mk 3 "AUTO" false "")]
       ++ [NetworkInterfaceGet "abc123" 7]).
Proof.
  apply (resourceNetworkInterfaceLinkCreate_read_back (NC := Fixture.maas)
           nat (Fixture.client (Fixture.healthy 4)) Fixture.lookups
           (Fixture.resource "" false)
           0%nat 0%nat 0%nat 0%nat 5%nat 5%nat 5%nat 6%nat
           "abc123" "abc123" Fixture.eth0 Fixture.eth0 Fixture.eth0
           (Subnet.mk 3) Fixture.link42 Fixture.link42
           [] [Fixture.link43]);
    try reflexivity.
  - cbn. lia.
  - intros other [].
Defined.

Lemma resourceNetworkInterfaceLinkCreate_records_id_witness :
  exists link rest,
    NetworkInterface.Links Fixture.eth0 = link :: rest
    /\ ResourceData.Id
         (ResourceData.mk "42" false "" "10.0.0.5" "abc123" "AUTO"
            "eth0" "10.0.0.0/24")
       = fmt_int (NetworkInterfaceLink.ID link).
Proof.
  destruct (resourceNetworkInterfaceLinkCreate_records_id
              (NC := Fixture.maas) nat
              (Fixture.client (Fixture.healthy 4)) Fixture.lookups
              (Fixture.resource "" false)
              (ResourceData.mk "42" false "" "10.0.0.5" "abc123" "AUTO"
                 "eth0" "10.0.0.0/24")
              0%nat 6%nat []
              [MachineGet "abc123";
               NetworkInterfaceUnlinkSubnet "abc123" 7 42;
               MachineGet "abc123";
               NetworkInterfaceUnlinkSubnet "abc123" 7 43;
               NetworkInterfaceLinkSubnet "abc123" 7
                 (NetworkInterfaceLinkParams.mk 3 "AUTO" false "");
               NetworkInterfaceGet "abc123" 7]
              eq_refl)
    as [[Hd _]
       |(systemID & w1 & networkInterface & w2 & subnet & w3 & w4 & w5
         & created & link & rest & before & after
         & _ & _ & _ & _ & Hlink & Hfirst & _ & _ & _
         & [[Hd _]|(_ & _ & _ & _ & _ & _ & found & _ & _ & _ & _ & _ & Hd')])].
  - now contradiction Hd.
  - now contradiction Hd.
  - cbn in Hlink. injection Hlink as <- _.
    exists link, rest. split; [exact Hfirst|].
    now rewrite Hd'.
Defined.

Lemma resourceNetworkInterfaceLinkCreate_link_parameters_witness :
  exists before after,
    (snd (resourceNetworkInterfaceLinkCreate (NC := Fixture.maas) nat
            (Fixture.client (Fixture.healthy 4)) Fixture.lookups
            (Fixture.resource "" true) 0%nat)
     = before
     \/ snd (resourceNetworkInterfaceLinkCreate (NC := Fixture.maas) nat
               (Fixture.client (Fixture.healthy 4)) Fixture.lookups
               (Fixture.resource "" true) 0%nat)
        = before
            ++ NetworkInterfaceLinkSubnet "abc123" 7
                 (NetworkInterfaceLinkParams.mk 3 "AUTO" true "")
            :: after)
    /\ existsb isLinkSubnet before = false
    /\ existsb isMutating after = false.
Proof.
  apply (resourceNetworkInterfaceLinkCreate_link_parameters
           (NC := Fixture.maas) nat
           (Fixture.client (Fixture.healthy 4)) Fixture.lookups
           (Fixture.resource "" true) 0%nat 0%nat 0%nat 0%nat
           "abc123" Fixture.eth0 (Subnet.mk 3));
    reflexivity.
Defined.
